(** * Termina clock: time engine and audio-cue state machine

    A shallow embedding of [clock.py].  Python numbers ([int] and [float]
    alike) are modelled as exact rationals [Q]: comparisons, clamping,
    floor division and the modulo are the mathematical ones, and rounding
    of binary floating point is outside the model.  The floats that are no
    numbers ([inf], [-inf], [nan]) come in where the settings window can
    produce them, as the debug offset, with an engine of their own.  The
    wall clock
    ([time.time()]) is an explicit argument [time_now]; module globals are
    record fields that are passed in and returned. *)

From Stdlib Require Import ZArith QArith Qround Qabs Lia Lqa Bool List String Ascii.
From Stdlib Require Import DecimalString Sorted.
Import ListNotations.

Open Scope Q_scope.

(** ** Python numeric primitives *)

Module Py.

(** [a < b] on numbers. *)
Definition ltb (a b : Q) : bool := negb (Qle_bool b a).

(** [a <= b] on numbers. *)
Definition leb (a b : Q) : bool := Qle_bool a b.

(** [int(x)]: truncation towards zero. *)
Definition int (x : Q) : Z := Z.quot (Qnum x) (Zpos (Qden x)).

(** [a // b] on floats: the floor of the quotient, still a float. *)
Definition floordiv (a b : Q) : Q := inject_Z (Qfloor (a / b)).

(** [a % b] on floats: [a - b * floor(a / b)]. *)
Definition mod_ (a b : Q) : Q := a - b * floordiv a b.

End Py.

(** ** Configuration and defaults *)

Definition TERMINA_HOURS_PER_DAY : Q := 24.
Definition TERMINA_TOTAL_HOURS : Q := 72.

Definition AUDIO_HOUR : string := "hour.mp3".
Definition AUDIO_FINAL : string := "final.mp3".
Definition AUDIO_BELLS : string := "bells.mp3".

Definition REAL_SECONDS_72MIN : Q := 72 * 60.
Definition REAL_SECONDS_24HR : Q := 24 * 60 * 60.

(** The module globals that the settings window writes and the clock reads. *)
Record Settings : Type := mkSettings {
  cycle_mode : string;
  mute_hour : bool;
  mute_final : bool;
  debug_mode : bool;
  debug_time_offset : Q;
  show_seconds : bool;
  dark_mode : bool;
  epoch_end_timestamp : Q
}.

(** Values at import time; [launch] is the [time.time()] read on line 54. *)
Definition default_settings (launch : Q) : Settings :=
  {| cycle_mode := "72min";
     mute_hour := false;
     mute_final := false;
     debug_mode := false;
     debug_time_offset := 0;
     show_seconds := false;
     dark_mode := false;
     epoch_end_timestamp := launch + REAL_SECONDS_72MIN |}.

(** ** Termina time engine *)

Definition set_epoch_end (real_timestamp : Q) (g : Settings) : Settings :=
  {| cycle_mode := cycle_mode g;
     mute_hour := mute_hour g;
     mute_final := mute_final g;
     debug_mode := debug_mode g;
     debug_time_offset := debug_time_offset g;
     show_seconds := show_seconds g;
     dark_mode := dark_mode g;
     epoch_end_timestamp := real_timestamp |}.

Definition set_debug_time_offset (seconds : Q) (g : Settings) : Settings :=
  {| cycle_mode := cycle_mode g;
     mute_hour := mute_hour g;
     mute_final := mute_final g;
     debug_mode := debug_mode g;
     debug_time_offset := seconds;
     show_seconds := show_seconds g;
     dark_mode := dark_mode g;
     epoch_end_timestamp := epoch_end_timestamp g |}.

Definition advance_debug_time (seconds : Q) (g : Settings) : Settings :=
  set_debug_time_offset (debug_time_offset g + seconds) g.

Definition reset_debug_time (g : Settings) : Settings :=
  set_debug_time_offset 0 g.

Definition get_cycle_length_seconds (g : Settings) : Q :=
  if String.eqb (cycle_mode g) "72min" then REAL_SECONDS_72MIN
  else REAL_SECONDS_24HR.

(** The tuple returned by [get_termina_state]. *)
Record TerminaState : Type := mkState {
  day : Z;
  hour : Q;
  total_hours : Q;
  seconds_remaining : Q
}.

(** Lines 159-163: time left to the epoch, clamped at 0. *)
Definition remaining (now epoch_end : Q) : Q :=
  let seconds_remaining := epoch_end - now in
  if Py.ltb seconds_remaining 0 then 0 else seconds_remaining.

(** Lines 168-175: progress through the cycle. *)
Definition cycle_progress (seconds_remaining cycle_real_seconds : Q) : Q :=
  if Py.leb cycle_real_seconds 0 then 1
  else
    let progress := 1 - seconds_remaining / cycle_real_seconds in
    let progress := if Py.ltb progress 0 then 0 else progress in
    if Py.ltb 1 progress then 1 else progress.

(** Lines 178-187: hours, day and hour of day from the progress. *)
Definition state_of_progress (progress seconds_remaining : Q) : TerminaState :=
  let total_hours := progress * TERMINA_TOTAL_HOURS in
  let day := (Py.int (Py.floordiv total_hours TERMINA_HOURS_PER_DAY) + 1)%Z in
  let day := if (3 <? day)%Z then 3%Z else day in
  let hour := Py.mod_ total_hours TERMINA_HOURS_PER_DAY in
  mkState day hour total_hours seconds_remaining.

(** The body of [get_termina_state], with the clock and the globals it reads
    as arguments. *)
Definition termina_state
    (time_now debug_offset epoch_end cycle_real_seconds : Q) : TerminaState :=
  let now := time_now + debug_offset in
  let seconds_remaining := remaining now epoch_end in
  let progress := cycle_progress seconds_remaining cycle_real_seconds in
  state_of_progress progress seconds_remaining.

Definition get_termina_state (g : Settings) (time_now : Q) : TerminaState :=
  termina_state time_now (debug_time_offset g) (epoch_end_timestamp g)
                (get_cycle_length_seconds g).

(** *** The same body with every raising operation made explicit *)

Inductive PyError : Type :=
| ZeroDivisionError
| ValueError
| OverflowError.

Inductive Result (A : Type) : Type :=
| Ok (a : A)
| Raise (e : PyError).
Arguments Ok {A} a.
Arguments Raise {A} e.

Definition bind {A B : Type} (m : Result A) (k : A -> Result B) : Result B :=
  match m with
  | Ok a => k a
  | Raise e => Raise e
  end.

Notation "x <- m ;; k" := (bind m (fun x => k))
  (at level 61, m at next level, right associativity).

Module Checked.

Definition truediv (a b : Q) : Result Q :=
  if Qeq_bool b 0 then Raise ZeroDivisionError else Ok (a / b).

Definition floordiv (a b : Q) : Result Q :=
  if Qeq_bool b 0 then Raise ZeroDivisionError else Ok (Py.floordiv a b).

Definition mod_ (a b : Q) : Result Q :=
  if Qeq_bool b 0 then Raise ZeroDivisionError else Ok (Py.mod_ a b).

Definition cycle_progress (seconds_remaining cycle_real_seconds : Q)
  : Result Q :=
  if Py.leb cycle_real_seconds 0 then Ok 1
  else
    q <- truediv seconds_remaining cycle_real_seconds ;;
    let progress := 1 - q in
    let progress := if Py.ltb progress 0 then 0 else progress in
    Ok (if Py.ltb 1 progress then 1 else progress).

Definition termina_state
    (time_now debug_offset epoch_end cycle_real_seconds : Q)
  : Result TerminaState :=
  let now := time_now + debug_offset in
  let seconds_remaining := remaining now epoch_end in
  progress <- cycle_progress seconds_remaining cycle_real_seconds ;;
  let total_hours := progress * TERMINA_TOTAL_HOURS in
  d <- floordiv total_hours TERMINA_HOURS_PER_DAY ;;
  let day := (Py.int d + 1)%Z in
  let day := if (3 <? day)%Z then 3%Z else day in
  hour <- mod_ total_hours TERMINA_HOURS_PER_DAY ;;
  Ok (mkState day hour total_hours seconds_remaining).

End Checked.

(** *** Floats that are not numbers

    [float(str)] also returns [inf], [-inf] and [nan].  The engine above
    covers the numbers; the module below is the same body over all four
    kinds of float, with IEEE arithmetic on the three others, exact
    arithmetic on the numbers, and the exceptions Python raises.  The
    divisors and the constants of the source are Python ints, hence
    numbers. *)

Inductive NonFinite : Type :=
| PosInf
| NegInf
| NotANumber.

Inductive PyFloat : Type :=
| Finite (q : Q)
| Special (x : NonFinite).

Module Fl.

Definition flip (x : NonFinite) : NonFinite :=
  match x with
  | PosInf => NegInf
  | NegInf => PosInf
  | NotANumber => NotANumber
  end.

Definition opp (a : PyFloat) : PyFloat :=
  match a with
  | Finite x => Finite (- x)
  | Special x => Special (flip x)
  end.

(** [a + b]: anything with [nan] is [nan], and so is [inf + -inf]. *)
Definition add (a b : PyFloat) : PyFloat :=
  match a, b with
  | Finite x, Finite y => Finite (x + y)
  | Special NotANumber, _ => Special NotANumber
  | _, Special NotANumber => Special NotANumber
  | Special PosInf, Special NegInf => Special NotANumber
  | Special NegInf, Special PosInf => Special NotANumber
  | Special x, _ => Special x
  | _, Special y => Special y
  end.

Definition sub (a b : PyFloat) : PyFloat := add a (opp b).

(** [a * b] for an int [b]: [inf * 0] is [nan]. *)
Definition mul (a : PyFloat) (b : Q) : PyFloat :=
  match a with
  | Finite x => Finite (x * b)
  | Special NotANumber => Special NotANumber
  | Special x =>
      if Qeq_bool b 0 then Special NotANumber
      else if Py.ltb b 0 then Special (flip x) else Special x
  end.

(** [a / b] for an int [b]. *)
Definition truediv (a : PyFloat) (b : Q) : Result PyFloat :=
  if Qeq_bool b 0 then Raise ZeroDivisionError
  else Ok match a with
          | Finite x => Finite (x / b)
          | Special x => if Py.ltb b 0 then Special (flip x) else Special x
          end.

(** [a // b] for an int [b]: [nan] for [inf] and [nan]. *)
Definition floordiv (a : PyFloat) (b : Q) : Result PyFloat :=
  if Qeq_bool b 0 then Raise ZeroDivisionError
  else Ok match a with
          | Finite x => Finite (Py.floordiv x b)
          | Special _ => Special NotANumber
          end.

(** [a % b] for an int [b]: [nan] for [inf] and [nan]. *)
Definition mod_ (a : PyFloat) (b : Q) : Result PyFloat :=
  if Qeq_bool b 0 then Raise ZeroDivisionError
  else Ok match a with
          | Finite x => Finite (Py.mod_ x b)
          | Special _ => Special NotANumber
          end.

(** [a < b] for an int [b]: false for [nan]. *)
Definition ltb (a : PyFloat) (b : Q) : bool :=
  match a with
  | Finite x => Py.ltb x b
  | Special NegInf => true
  | Special _ => false
  end.

(** [a > b] for an int [b]: false for [nan]. *)
Definition gtb (a : PyFloat) (b : Q) : bool :=
  match a with
  | Finite x => Py.ltb b x
  | Special PosInf => true
  | Special _ => false
  end.

(** [int(a)]: [ValueError] for [nan], [OverflowError] for [inf]. *)
Definition int (a : PyFloat) : Result Z :=
  match a with
  | Finite x => Ok (Py.int x)
  | Special NotANumber => Raise ValueError
  | Special _ => Raise OverflowError
  end.

(** The tuple returned by [get_termina_state], floats as floats. *)
Record State : Type := mkState {
  day : Z;
  hour : PyFloat;
  total_hours : PyFloat;
  seconds_remaining : PyFloat
}.

(** Lines 158-187, for a clock and an epoch end that are numbers and a
    debug offset that is any float. *)
Definition termina_state
    (time_now : Q) (debug_offset : PyFloat) (epoch_end cycle_real_seconds : Q)
  : Result State :=
  let now := add (Finite time_now) debug_offset in
  let seconds_remaining := sub (Finite epoch_end) now in
  let seconds_remaining :=
    if ltb seconds_remaining 0 then Finite 0 else seconds_remaining in
  progress <-
    (if Py.leb cycle_real_seconds 0 then Ok (Finite 1)
     else
       q <- truediv seconds_remaining cycle_real_seconds ;;
       let progress := sub (Finite 1) q in
       let progress := if ltb progress 0 then Finite 0 else progress in
       Ok (if gtb progress 1 then Finite 1 else progress)) ;;
  let total_hours := mul progress TERMINA_TOTAL_HOURS in
  d <- floordiv total_hours TERMINA_HOURS_PER_DAY ;;
  n <- int d ;;
  let day := (n + 1)%Z in
  let day := if (3 <? day)%Z then 3%Z else day in
  hour <- mod_ total_hours TERMINA_HOURS_PER_DAY ;;
  Ok (mkState day hour total_hours seconds_remaining).

End Fl.

(** A state of numbers, as floats. *)
Definition float_state (st : TerminaState) : Fl.State :=
  Fl.mkState (day st) (Finite (hour st)) (Finite (total_hours st))
             (Finite (seconds_remaining st)).

(** ** Text formatting used by the display *)

Module Fmt.

Definition nl : string := String (ascii_of_nat 10) EmptyString.

(** Decimal digits of [|n|]. *)
Definition digits (n : Z) : string :=
  NilZero.string_of_uint (N.to_uint (Z.abs_N n)).

Fixpoint zeros (n : nat) : string :=
  match n with
  | O => EmptyString
  | S k => String "0" (zeros k)
  end.

(** [f"{n:0<width>d}"]: sign first, then zeros up to the width. *)
Definition d0 (width : nat) (n : Z) : string :=
  let sign := if (n <? 0)%Z then "-"%string else EmptyString in
  let body := digits n in
  (sign ++ zeros (width - String.length sign - String.length body) ++ body)%string.

(** [f"{n}"] for an integer. *)
Definition d (n : Z) : string := d0 0 n.

(** Nearest integer of a non-negative number, ties to even. *)
Definition round_half_even (x : Q) : Z :=
  let f := Qfloor x in
  let r := x - inject_Z f in
  if Py.ltb r (1 # 2) then f
  else if Py.ltb (1 # 2) r then (f + 1)%Z
  else if Z.even f then f else (f + 1)%Z.

(** [f"{x:.1f}"]. *)
Definition f1 (x : Q) : string :=
  let sign := if Py.ltb x 0 then "-"%string else EmptyString in
  let tenths := round_half_even (Qabs x * 10) in
  (sign ++ digits (tenths / 10) ++ "." ++ digits (tenths mod 10))%string.

End Fmt.

(** ** Audio *)

(** Calls made by [update_clock] into the audio helpers. *)
Inductive AudioCall : Type :=
| stop_sound
| play_sound (file : string) (muted : bool).

(** What a helper asks of [pygame.mixer.music]. *)
Inductive MixerOp : Type :=
| music_stop
| music_load (file : string)
| music_play.

(** Lines 62-82: a muted [play_sound] returns before touching the mixer.
    These are the requests made while the mixer raises nothing; when a
    request raises, the helper prints the error and makes no further
    request. *)
Definition mixer_ops (c : AudioCall) : list MixerOp :=
  match c with
  | stop_sound => [music_stop]
  | play_sound file muted => if muted then [] else [music_load file; music_play]
  end.

(** ** Main loop *)

(** The three globals declared on lines 396-398. *)
Record CueState : Type := mkCue {
  last_hour_int : Z;
  final_music_playing : bool;
  bells_playing : bool
}.

Definition initial_cue : CueState :=
  {| last_hour_int := (-1)%Z;
     final_music_playing := false;
     bells_playing := false |}.

(** What one run of [update_clock] leaves behind: the globals, the audio
    calls it made in order, and the label text it set last. *)
Record Tick : Type := mkTick {
  cue : CueState;
  calls : list AudioCall;
  label_text : string
}.

(** Lines 408-413. *)
Definition debug_info (g : Settings) (st : TerminaState) : string :=
  if debug_mode g then
    let info := (Fmt.nl ++ "[DEBUG] Offset: " ++ Fmt.f1 (debug_time_offset g) ++ "s")%string in
    if Py.ltb 0 (seconds_remaining st) then
      (info ++ Fmt.nl ++ "[DEBUG] Real remaining: "
            ++ Fmt.f1 (seconds_remaining st) ++ "s")%string
    else info
  else EmptyString.

(** Lines 419-427: final night music. *)
Definition final_night_block (g : Settings) (st : TerminaState) (s : CueState)
  : CueState * list AudioCall :=
  if Py.ltb 300 (seconds_remaining st) then
    if (day st =? 3)%Z && Py.leb 18 (hour st) && negb (final_music_playing s) then
      ({| last_hour_int := last_hour_int s;
          final_music_playing := true;
          bells_playing := false |},
       [stop_sound; play_sound AUDIO_FINAL (mute_final g)])
    else (s, [])
  else
    ({| last_hour_int := last_hour_int s;
        final_music_playing := false;
        bells_playing := bells_playing s |}, []).

(** Lines 440-444: the countdown text, seconds with milliseconds. *)
Definition countdown_text (g : Settings) (st : TerminaState) : string :=
  let whole_sec := Py.int (seconds_remaining st) in
  let ms := Py.int ((seconds_remaining st - inject_Z whole_sec) * 1000) in
  ("FINAL HOURS" ++ Fmt.nl ++ Fmt.d0 2 whole_sec ++ "." ++ Fmt.d0 3 ms
     ++ " seconds remain" ++ debug_info g st)%string.

(** Lines 453-455: the chime on a change of the integer hour to 6 or 18. *)
Definition hour_chime (g : Settings) (hour_int last : Z) : list AudioCall :=
  if negb (hour_int =? last)%Z then
    if (hour_int =? 6)%Z || (hour_int =? 18)%Z then
      [play_sound AUDIO_HOUR (mute_hour g)]
    else []
  else [].

(** Lines 459-470: the normal text. *)
Definition normal_text (g : Settings) (st : TerminaState) : string :=
  let hour_int := Py.int (hour st) in
  if show_seconds g then
    let hour_fraction := Py.mod_ (hour st) 1 in
    let display_seconds := Py.int (hour_fraction * 60) in
    ("Day " ++ Fmt.d (day st) ++ Fmt.nl ++ Fmt.d0 2 hour_int ++ ":"
       ++ Fmt.d0 2 display_seconds ++ " Termina" ++ debug_info g st)%string
  else
    ("Day " ++ Fmt.d (day st) ++ Fmt.nl ++ Fmt.d0 2 hour_int
       ++ ":00 Termina" ++ debug_info g st)%string.

(** Lines 433-470: final countdown, else hour chime and normal display. *)
Definition countdown_block (g : Settings) (st : TerminaState) (s : CueState)
  : CueState * list AudioCall * string :=
  let hour_int := Py.int (hour st) in
  if Py.ltb 0 (seconds_remaining st) && Py.leb (seconds_remaining st) 300 then
    let '(s, c) :=
      if negb (bells_playing s) then
        ({| last_hour_int := last_hour_int s;
            final_music_playing := final_music_playing s;
            bells_playing := true |},
         [stop_sound; play_sound AUDIO_BELLS (mute_final g)])
      else (s, []) in
    (s, c, countdown_text g st)
  else
    let c := hour_chime g hour_int (last_hour_int s) in
    let s := {| last_hour_int := hour_int;
                final_music_playing := final_music_playing s;
                bells_playing := false |} in
    (s, c, normal_text g st).

(** Lines 475-480: reset event. *)
Definition reset_block (g : Settings) (st : TerminaState)
    (s : CueState) (text : string) : CueState * list AudioCall * string :=
  if Py.leb (seconds_remaining st) 0 then
    ({| last_hour_int := last_hour_int s;
        final_music_playing := false;
        bells_playing := false |},
     [stop_sound],
     ("DAWN OF A NEW DAY" ++ debug_info g st)%string)
  else (s, [], text).

(** The body of [update_clock] after the state has been read. *)
Definition update_clock_on (g : Settings) (s : CueState) (st : TerminaState)
  : Tick :=
  let '(s1, c1) := final_night_block g st s in
  let '(s2, c2, text) := countdown_block g st s1 in
  let '(s3, c3, text) := reset_block g st s2 text in
  mkTick s3 (c1 ++ c2 ++ c3) text.

(** One run of [update_clock] with the clock reading [time_now]. *)
Definition update_clock (g : Settings) (s : CueState) (time_now : Q) : Tick :=
  update_clock_on g s (get_termina_state g time_now).

(** Successive runs of [update_clock], one per clock reading, with the
    settings untouched in between: the globals at the end and the calls of
    each run. *)
Fixpoint run (g : Settings) (s : CueState) (times : list Q)
  : CueState * list (list AudioCall) :=
  match times with
  | [] => (s, [])
  | t :: rest =>
      let k := update_clock g s t in
      let '(s', cs) := run g (cue k) rest in
      (s', calls k :: cs)
  end.

(** ** Settings window *)

(** [sep in s]. *)
Fixpoint contains (sep : ascii) (s : string) : bool :=
  match s with
  | EmptyString => false
  | String c rest => Ascii.eqb c sep || contains sep rest
  end.

(** [s.split(sep)] for a one-character separator. *)
Fixpoint split (sep : ascii) (s : string) : list string :=
  match s with
  | EmptyString => [EmptyString]
  | String c rest =>
      if Ascii.eqb c sep then EmptyString :: split sep rest
      else match split sep rest with
           | head :: tail => String c head :: tail
           | [] => [String c EmptyString]
           end
  end.

(** Truth value of a string: non-empty. *)
Definition truthy (s : string) : bool :=
  match s with
  | EmptyString => false
  | String _ _ => true
  end.

(** What the widgets of the settings window hold when Save is pressed. *)
Record Form : Type := mkForm {
  epoch_entry : string;
  cycle_var : string;
  hour_var : bool;
  final_var : bool;
  seconds_var : bool;
  dark_var : bool;
  debug_var : bool;
  debug_offset_entry : string
}.

(** All module globals: the settings and the three of the main loop.
    [debug_time_offset] is a float: the settings hold it while it is a
    number; [offset_special] holds it when it is [inf], [-inf] or [nan], and
    the number in the settings is then not in use. *)
Record Globals : Type := mkGlobals {
  settings : Settings;
  cue_globals : CueState;
  offset_special : option NonFinite
}.

(** The global [debug_time_offset]. *)
Definition offset_of (p : Globals) : PyFloat :=
  match offset_special p with
  | Some x => Special x
  | None => Finite (debug_time_offset (settings p))
  end.

(** [get_termina_state] on the globals, for a clock reading [time_now]. *)
Definition get_termina_state_float (p : Globals) (time_now : Q)
  : Result Fl.State :=
  Fl.termina_state time_now (offset_of p) (epoch_end_timestamp (settings p))
                   (get_cycle_length_seconds (settings p)).

(** Lines printed by [save_settings] and the setters it calls; the text of
    the caught exception is left out. *)
Inductive LogLine : Type :=
| Day3WillEndAt (timestamp : Q)
| Day1StartedAt (timestamp : Q)
| InvalidTimeFormat (t : string)
| DebugOffsetSet (seconds : PyFloat)
| DebugOffsetSetTo (seconds : PyFloat)
| InvalidDebugOffset (s : string).

Section SettingsWindow.

(** Python built-ins and the host clock, which the repository uses and
    does not define.  [None] stands for a raised [ValueError]. *)
Variable str_strip : string -> string.
Variable int_of_str : string -> option Z.
Variable float_of_str : string -> option PyFloat.
(** [time.time()]. *)
Variable time_now : Q.
(** Timestamp of [datetime.now().replace(hour=hh, minute=mm, second=0,
    microsecond=0)], and of that moment plus [timedelta(days=1)]. *)
Variable today_at : Z -> Z -> Q.
Variable next_day_at : Z -> Z -> Q.

(** Lines 342-350: hours and minutes of the entry, or [ValueError]. *)
Definition parse_time (t : string) : option (Z * Z) :=
  let fields :=
    if contains ":" t then
      match split ":" t with
      | [a; b] =>
          match int_of_str a with
          | Some hh =>
              match int_of_str b with
              | Some mm => Some (hh, mm)
              | None => None
              end
          | None => None
          end
      | _ => None
      end
    else
      match int_of_str t with
      | Some hh => Some (hh, 0%Z)
      | None => None
      end in
  match fields with
  | Some (hh, mm) =>
      if negb ((0 <=? hh)%Z && (hh <=? 23)%Z && (0 <=? mm)%Z && (mm <=? 59)%Z)
      then None
      else Some (hh, mm)
  | None => None
  end.

(** Lines 352-367: the new epoch end for accepted hours and minutes. *)
Definition apply_time (hh mm : Z) (g : Settings) : Settings * list LogLine :=
  let target_day3_end :=
    if Py.leb (today_at hh mm) time_now then next_day_at hh mm
    else today_at hh mm in
  let cycle_length := get_cycle_length_seconds g in
  let day1_start := target_day3_end - cycle_length in
  (set_epoch_end target_day3_end g,
   [Day3WillEndAt target_day3_end; Day1StartedAt day1_start]).

(** Lines 125-133 on the globals: the offset is stored whatever float it
    is. *)
Definition store_offset (offset : PyFloat) (g : Settings)
  : Settings * option NonFinite :=
  match offset with
  | Finite seconds => (set_debug_time_offset seconds g, None)
  | Special x => (g, Some x)
  end.

(** Lines 321-383.  The second handler of the first [try] (any other
    exception) has nothing to catch here, where the date arithmetic is
    total. *)
Definition save_settings (f : Form) (p : Globals) : Globals * list LogLine :=
  let g := settings p in
  let g := {| cycle_mode := cycle_var f;
              mute_hour := hour_var f;
              mute_final := final_var f;
              debug_mode := debug_var f;
              debug_time_offset := debug_time_offset g;
              show_seconds := seconds_var f;
              dark_mode := dark_var f;
              epoch_end_timestamp := epoch_end_timestamp g |} in
  let t := str_strip (epoch_entry f) in
  let '(g, log1) :=
    if truthy t then
      match parse_time t with
      | Some (hh, mm) => apply_time hh mm g
      | None => (g, [InvalidTimeFormat t])
      end
    else (g, []) in
  let debug_offset_str := str_strip (debug_offset_entry f) in
  let '(g, special, log2) :=
    if truthy debug_offset_str then
      match float_of_str debug_offset_str with
      | Some offset =>
          (store_offset offset g,
           [DebugOffsetSet offset; DebugOffsetSetTo offset])
      | None => (g, offset_special p, [InvalidDebugOffset debug_offset_str])
      end
    else (g, offset_special p, []) in
  ({| settings := g; cue_globals := cue_globals p; offset_special := special |},
   log1 ++ log2).

End SettingsWindow.

(** Stand-ins for the built-ins, for trying [save_settings] out: no
    stripping, unsigned decimal digits only (and, for the second float
    parser, the three words [float] takes for the floats that are no
    numbers), seconds since midnight. *)
Definition digits_only (s : string) : option Z :=
  match NilZero.uint_of_string s with
  | Some u => Some (Z.of_N (N.of_uint u))
  | None => None
  end.

Definition digits_only_Q (s : string) : option PyFloat :=
  match digits_only s with
  | Some z => Some (Finite (inject_Z z))
  | None => None
  end.

Definition digits_or_special (s : string) : option PyFloat :=
  if String.eqb s "nan" then Some (Special NotANumber)
  else if String.eqb s "inf" then Some (Special PosInf)
  else if String.eqb s "-inf" then Some (Special NegInf)
  else digits_only_Q s.

Definition seconds_at (hh mm : Z) : Q := inject_Z (hh * 3600 + mm * 60).

Definition seconds_next_day_at (hh mm : Z) : Q := seconds_at hh mm + 86400.

(** ** The cue states as the specification names them

    The classification below follows the specification's section 4.4, not
    the code: Reset when no time remains, FinalCountdown in the last 300
    seconds, FinalNight on day 3 from hour 18 with more than 300 seconds
    left, Normal otherwise, in that priority. *)

Inductive ActiveState : Type :=
| Reset
| FinalCountdown
| FinalNight
| Normal.

Definition spec_active_state (st : TerminaState) : ActiveState :=
  if Py.leb (seconds_remaining st) 0 then Reset
  else if Py.leb (seconds_remaining st) 300 then FinalCountdown
  else if (day st =? 3)%Z && Py.leb 18 (hour st) then FinalNight
  else Normal.

(** A call that starts the hour track, muted or not. *)
Definition is_hour_start (c : AudioCall) : bool :=
  match c with
  | play_sound file _ => String.eqb file AUDIO_HOUR
  | stop_sound => false
  end.

(** The clock reading [t] falls in the last 300 seconds before the end. *)
Definition in_countdown (g : Settings) (t : Q) : Prop :=
  0 < seconds_remaining (get_termina_state g t)
  /\ seconds_remaining (get_termina_state g t) <= 300.

(** The globals as they stand when the countdown is entered: as declared at
    start-up, or as left by a run (under any settings) that was not in the
    countdown. *)
Definition entering (s : CueState) : Prop :=
  s = initial_cue
  \/ exists (g' : Settings) (s0 : CueState) (tp : Q),
       ~ in_countdown g' tp /\ s = cue (update_clock g' s0 tp).

(** The settings with the two mute flags replaced. *)
Definition set_mutes (mh mf : bool) (g : Settings) : Settings :=
  {| cycle_mode := cycle_mode g;
     mute_hour := mh;
     mute_final := mf;
     debug_mode := debug_mode g;
     debug_time_offset := debug_time_offset g;
     show_seconds := show_seconds g;
     dark_mode := dark_mode g;
     epoch_end_timestamp := epoch_end_timestamp g |}.

(** The same call with the mute argument the flags [mh], [mf] give it. *)
Definition mute_call (mh mf : bool) (c : AudioCall) : AudioCall :=
  match c with
  | stop_sound => stop_sound
  | play_sound file _ =>
      play_sound file (if String.eqb file AUDIO_HOUR then mh else mf)
  end.

(** ** Notions for the properties of whole runs *)

(** More than 300 seconds remain at the clock reading [t]. *)
Definition above_countdown (g : Settings) (t : Q) : Prop :=
  300 < seconds_remaining (get_termina_state g t).

(** The test of line 420, the flag apart, holds at the clock reading [t]. *)
Definition in_final_night (g : Settings) (t : Q) : Prop :=
  300 < seconds_remaining (get_termina_state g t)
  /\ day (get_termina_state g t) = 3%Z
  /\ 18 <= hour (get_termina_state g t).

(** A call that starts the track [file], muted or not. *)
Definition is_start_of (file : string) (c : AudioCall) : bool :=
  match c with
  | play_sound f _ => String.eqb f file
  | stop_sound => false
  end.

(** Number of starts of the track [file] among the calls. *)
Definition starts_of (file : string) (cs : list AudioCall) : nat :=
  List.length (filter (is_start_of file) cs).

(** Every start of a track other than the hour chime comes directly after
    a stop call; [after_stop] tells whether the call before was a stop. *)
Fixpoint stop_before_each_start (after_stop : bool) (cs : list AudioCall) : bool :=
  match cs with
  | [] => true
  | stop_sound :: rest => stop_before_each_start true rest
  | play_sound file _ :: rest =>
      (String.eqb file AUDIO_HOUR || after_stop)
      && stop_before_each_start false rest
  end.

(** What the calls of a run ask of the mixer, in order. *)
Definition mixer_trace (cs : list AudioCall) : list MixerOp :=
  flat_map mixer_ops cs.

(** A request to stop the music. *)
Definition is_music_stop (op : MixerOp) : bool :=
  match op with
  | music_stop => true
  | music_load _ | music_play => false
  end.

(** * Properties *)

(** ** The definitions at work *)

Example state_halfway :
  termina_state 2160 0 4320 4320 = mkState 2 (51840 # 4320) (155520 # 4320) 2160.
Proof. reflexivity. Qed.

Example state_degenerate_cycle :
  termina_state 10 0 4320 0 = mkState 3 0 72 4310.
Proof. reflexivity. Qed.

Example label_normal_with_seconds :
  label_text (update_clock (mkSettings "72min" false false false 0 true false 4320)
                           initial_cue 1105)
  = ("Day 1" ++ Fmt.nl ++ "18:25 Termina")%string.
Proof. vm_compute. reflexivity. Qed.

Example label_countdown_with_debug :
  label_text (update_clock (mkSettings "72min" false false true (3 # 2) false false 4320)
                           initial_cue (4069 + (1 # 8)))
  = ("FINAL HOURS" ++ Fmt.nl ++ "249.375 seconds remain" ++ Fmt.nl
       ++ "[DEBUG] Offset: 1.5s" ++ Fmt.nl ++ "[DEBUG] Real remaining: 249.4s")%string.
Proof. vm_compute. reflexivity. Qed.

Example formats :
  (Fmt.d0 2 7, Fmt.d0 3 (-5), Fmt.d 12, Fmt.f1 (-123456 # 1000))
  = ("07", "-05", "12", "-123.5")%string.
Proof. vm_compute. reflexivity. Qed.

Example save_accepts_time_and_offset :
  save_settings (fun s => s) digits_only digits_only_Q 50000
                seconds_at seconds_next_day_at
                (mkForm "14:30" "24hr" true false false false false "90")
                (mkGlobals (default_settings 0) initial_cue None)
  = (mkGlobals (mkSettings "24hr" true false false 90 false false (seconds_at 14 30))
               initial_cue None,
     [Day3WillEndAt (seconds_at 14 30);
      Day1StartedAt (seconds_at 14 30 - REAL_SECONDS_24HR);
      DebugOffsetSet (Finite 90); DebugOffsetSetTo (Finite 90)]).
Proof. reflexivity. Qed.

Example float_engine_on_inf_and_nan :
  Fl.termina_state 100 (Special NegInf) 4320 4320
  = Ok (Fl.mkState 1 (Finite 0) (Finite 0) (Special PosInf))
  /\ Fl.termina_state 100 (Special PosInf) 4320 4320
     = Ok (Fl.mkState 3 (Finite (0 # 4320)) (Finite (311040 # 4320)) (Finite 0))
  /\ Fl.termina_state 100 (Special NotANumber) 4320 4320 = Raise ValueError.
Proof. repeat split. Qed.

Example save_rejects_three_fields :
  parse_time digits_only "12:30:45" = None /\ parse_time digits_only "7" = Some (7, 0)%Z.
Proof. split; reflexivity. Qed.

(** ** Comparisons and rounding *)

Lemma ltb_lt (a b : Q) : Py.ltb a b = true <-> a < b.
Proof.
  unfold Py.ltb. rewrite negb_true_iff, <- not_true_iff_false, Qle_bool_iff.
  split; [apply Qnot_le_lt | apply Qlt_not_le].
Qed.

Lemma leb_le (a b : Q) : Py.leb a b = true <-> a <= b.
Proof. apply Qle_bool_iff. Qed.

Lemma ltbP (a b : Q) : reflect (a < b) (Py.ltb a b).
Proof. apply iff_reflect. symmetry. apply ltb_lt. Qed.

Lemma lebP (a b : Q) : reflect (a <= b) (Py.leb a b).
Proof. apply iff_reflect. symmetry. apply leb_le. Qed.

Ltac no_cmp t :=
  lazymatch t with
  | context [Py.ltb _ _] => fail
  | context [Py.leb _ _] => fail
  | _ => idtac
  end.

(** Destructs every comparison of the goal into its two cases, innermost
    first. *)
Ltac by_cases :=
  repeat match goal with
  | |- context [Py.ltb ?a ?b] => no_cmp a; no_cmp b; destruct (ltbP a b)
  | |- context [Py.leb ?a ?b] => no_cmp a; no_cmp b; destruct (lebP a b)
  end.

Lemma int_inject_Z (z : Z) : Py.int (inject_Z z) = z.
Proof. unfold Py.int. simpl. apply Z.quot_1_r. Qed.

Lemma int_floor (x : Q) : 0 <= x -> Py.int x = Qfloor x.
Proof.
  destruct x as [n d]. unfold Py.int, Qfloor, Qle. simpl. intros H.
  apply Z.quot_div_nonneg; lia.
Qed.

Lemma floor_unique (x : Q) (z : Z) :
  inject_Z z <= x -> x < inject_Z (z + 1) -> Qfloor x = z.
Proof.
  intros Hlo Hhi. apply Z.le_antisymm.
  - assert (H : inject_Z (Qfloor x) < inject_Z (z + 1)).
    { eapply Qle_lt_trans; [apply Qfloor_le | exact Hhi]. }
    rewrite <- Zlt_Qlt in H. lia.
  - rewrite <- (Qfloor_Z z). now apply Qfloor_resp_le.
Qed.

Lemma int_comp (x y : Q) : 0 <= x -> x == y -> Py.int x = Py.int y.
Proof.
  intros Hx Hxy. rewrite !int_floor; [now rewrite Hxy | now rewrite <- Hxy | exact Hx].
Qed.

(** ** The time engine *)

Lemma remaining_nonneg (now epoch_end : Q) : 0 <= remaining now epoch_end.
Proof. unfold remaining. by_cases; lra. Qed.

Lemma remaining_past (now epoch_end : Q) :
  epoch_end <= now -> remaining now epoch_end == 0.
Proof. unfold remaining. by_cases; lra. Qed.

Lemma remaining_before (now epoch_end : Q) :
  now <= epoch_end -> remaining now epoch_end == epoch_end - now.
Proof. unfold remaining. by_cases; lra. Qed.

Lemma cycle_progress_range (r c : Q) :
  0 <= cycle_progress r c /\ cycle_progress r c <= 1.
Proof. unfold cycle_progress. by_cases; lra. Qed.

(** Inside the cycle the progress is the elapsed fraction. *)
Lemma cycle_progress_inside (r c : Q) :
  0 < c -> 0 <= r -> r <= c -> cycle_progress r c * c == c - r.
Proof.
  intros Hc Hr Hrc. unfold cycle_progress.
  assert (Hq : r / c * c == r) by (field; lra).
  assert (Hq0 : 0 <= r / c).
  { apply Qle_shift_div_l; lra. }
  assert (Hq1 : r / c <= 1).
  { apply Qle_shift_div_r; lra. }
  by_cases; lra.
Qed.

Lemma day_of_progress (p r : Q) :
  day (state_of_progress p r) = Z.min 3 (Qfloor (p * 72 / 24) + 1).
Proof.
  unfold state_of_progress, Py.floordiv, TERMINA_TOTAL_HOURS, TERMINA_HOURS_PER_DAY.
  cbn [day]. rewrite int_inject_Z.
  destruct (Z.ltb_spec 3 (Qfloor (p * 72 / 24) + 1)); lia.
Qed.

Lemma hour_of_progress (p r : Q) :
  hour (state_of_progress p r)
  == p * 72 - 24 * inject_Z (Qfloor (p * 72 / 24)).
Proof. reflexivity. Qed.

Lemma hour_range (p r : Q) :
  0 <= hour (state_of_progress p r) /\ hour (state_of_progress p r) < 24.
Proof.
  rewrite hour_of_progress.
  pose proof (Qfloor_le (p * 72 / 24)) as Hlo.
  pose proof (Qlt_floor (p * 72 / 24)) as Hhi.
  rewrite inject_Z_plus in Hhi. change (inject_Z 1) with 1 in Hhi.
  set (f := inject_Z (Qfloor (p * 72 / 24))) in *.
  assert (E : p * 72 / 24 == p * 3) by field.
  rewrite E in Hlo, Hhi. split; lra.
Qed.

Lemma remaining_antitone (now1 now2 epoch_end : Q) :
  now1 <= now2 -> remaining now2 epoch_end <= remaining now1 epoch_end.
Proof. intros H. unfold remaining. by_cases; lra. Qed.

Lemma cycle_progress_antitone (r1 r2 c : Q) :
  r2 <= r1 -> cycle_progress r1 c <= cycle_progress r2 c.
Proof.
  intros H. unfold cycle_progress. destruct (lebP c 0) as [Hc | Hc]; [lra | ].
  assert (Hq : r2 / c <= r1 / c).
  { apply Qmult_le_compat_r; [exact H | ]. apply Qinv_le_0_compat. lra. }
  by_cases; lra.
Qed.

(** C4: for every clock reading, epoch end, cycle length (also a
    non-positive one) and debug offset, the state that get_termina_state
    computes has its day in {1, 2, 3} and its hour in [0, 24). *)
Theorem day_and_hour_in_range (now epoch_end cycle_length offset : Q) :
  let st := termina_state now offset epoch_end cycle_length in
  (day st = 1 \/ day st = 2 \/ day st = 3)%Z /\ 0 <= hour st /\ hour st < 24.
Proof.
  intros st. subst st. unfold termina_state.
  set (r := remaining _ _). set (p := cycle_progress r cycle_length).
  split; [ | apply hour_range].
  rewrite day_of_progress.
  destruct (cycle_progress_range r cycle_length) as [Hlo _]. fold p in Hlo.
  assert (H0 : (0 <= Qfloor (p * 72 / 24))%Z).
  { rewrite <- (Qfloor_Z 0). apply Qfloor_resp_le.
    assert (E : p * 72 / 24 == p * 3) by field. rewrite E.
    change (inject_Z 0) with 0. lra. }
  lia.
Qed.

(** C5: with the epoch end, the cycle length and the debug offset fixed, a
    later clock reading never has more seconds remaining and never has
    fewer total hours. *)
Theorem state_monotone_in_now (now1 now2 epoch_end cycle_length offset : Q) :
  now1 <= now2 ->
  seconds_remaining (termina_state now2 offset epoch_end cycle_length)
    <= seconds_remaining (termina_state now1 offset epoch_end cycle_length)
  /\ total_hours (termina_state now1 offset epoch_end cycle_length)
    <= total_hours (termina_state now2 offset epoch_end cycle_length).
Proof.
  intros H. unfold termina_state, state_of_progress, TERMINA_TOTAL_HOURS.
  cbn [seconds_remaining total_hours].
  assert (Hr : remaining (now2 + offset) epoch_end
               <= remaining (now1 + offset) epoch_end).
  { apply remaining_antitone. lra. }
  split; [exact Hr | ].
  pose proof (cycle_progress_antitone _ _ cycle_length Hr). lra.
Qed.

Lemma state_monotone_in_now_witness :
  0 <= 2160
  /\ seconds_remaining (termina_state 2160 0 4320 4320)
       <= seconds_remaining (termina_state 0 0 4320 4320)
  /\ total_hours (termina_state 0 0 4320 4320)
       <= total_hours (termina_state 2160 0 4320 4320).
Proof.
  split; [lra | apply (state_monotone_in_now 0 2160 4320 4320 0); lra].
Defined.

(** C7: get_termina_state raises nothing on any numeric input: the body
    with each division guarded as Python guards it returns the state of the
    plain body; a non-positive cycle length gives progress 1 instead of a
    division by zero; the seconds remaining are never negative. *)
Theorem termina_state_total (now epoch_end cycle_length offset : Q) :
  Checked.termina_state now offset epoch_end cycle_length
    = Ok (termina_state now offset epoch_end cycle_length)
  /\ (forall r, cycle_length <= 0 ->
        Checked.cycle_progress r cycle_length = Ok 1
        /\ cycle_progress r cycle_length = 1)
  /\ 0 <= seconds_remaining (termina_state now offset epoch_end cycle_length).
Proof.
  split; [ | split].
  - unfold Checked.termina_state, termina_state, state_of_progress.
    set (r := remaining _ _).
    assert (Hp : Checked.cycle_progress r cycle_length
                 = Ok (cycle_progress r cycle_length)).
    { unfold Checked.cycle_progress, cycle_progress, Checked.truediv.
      destruct (lebP cycle_length 0) as [Hc | Hc]; [reflexivity | ].
      destruct (Qeq_bool cycle_length 0) eqn:E; [ | reflexivity].
      apply Qeq_bool_eq in E. exfalso. apply Hc. lra. }
    rewrite Hp. reflexivity.
  - intros r Hc. unfold Checked.cycle_progress, cycle_progress.
    destruct (lebP cycle_length 0); [split; reflexivity | contradiction].
  - apply remaining_nonneg.
Qed.

Lemma termina_state_total_witness :
  Checked.termina_state 10 0 4320 0 = Ok (termina_state 10 0 4320 0)
  /\ (0 <= 0 -> Checked.cycle_progress 4310 0 = Ok 1 /\ cycle_progress 4310 0 = 1)
  /\ 0 <= seconds_remaining (termina_state 10 0 4320 0).
Proof.
  destruct (termina_state_total 10 4320 0 0) as (H1 & H2 & H3).
  split; [exact H1 | split; [ | exact H3]].
  intros H. exact (H2 4310 H).
Defined.

(** ** One run of the clock, by the time remaining *)

Lemma tick_reset (g : Settings) (s : CueState) (st : TerminaState) :
  seconds_remaining st <= 0 ->
  update_clock_on g s st
  = mkTick (mkCue (Py.int (hour st)) false false)
           (hour_chime g (Py.int (hour st)) (last_hour_int s) ++ [stop_sound])
           ("DAWN OF A NEW DAY" ++ debug_info g st).
Proof.
  intros H. unfold update_clock_on, final_night_block, countdown_block, reset_block.
  destruct (ltbP 300 (seconds_remaining st)); [lra | ].
  destruct (ltbP 0 (seconds_remaining st)); [lra | ].
  destruct (lebP (seconds_remaining st) 0); [ | contradiction].
  reflexivity.
Qed.

Lemma tick_countdown (g : Settings) (s : CueState) (st : TerminaState) :
  0 < seconds_remaining st -> seconds_remaining st <= 300 ->
  update_clock_on g s st
  = mkTick (mkCue (last_hour_int s) false true)
           (if bells_playing s then []
            else [stop_sound; play_sound AUDIO_BELLS (mute_final g)])
           (countdown_text g st).
Proof.
  intros H0 H300.
  unfold update_clock_on, final_night_block, countdown_block, reset_block.
  destruct (ltbP 300 (seconds_remaining st)); [lra | ].
  destruct (ltbP 0 (seconds_remaining st)); [ | contradiction].
  destruct (lebP (seconds_remaining st) 300); [ | contradiction].
  destruct (lebP (seconds_remaining st) 0); [lra | ].
  cbn. destruct (bells_playing s); reflexivity.
Qed.

Lemma tick_above (g : Settings) (s : CueState) (st : TerminaState) :
  300 < seconds_remaining st ->
  let night := (day st =? 3)%Z && Py.leb 18 (hour st) in
  update_clock_on g s st
  = mkTick (mkCue (Py.int (hour st)) (final_music_playing s || night) false)
           ((if night && negb (final_music_playing s)
             then [stop_sound; play_sound AUDIO_FINAL (mute_final g)] else [])
            ++ hour_chime g (Py.int (hour st)) (last_hour_int s))
           (normal_text g st).
Proof.
  intros H night. subst night.
  unfold update_clock_on, final_night_block, countdown_block, reset_block.
  destruct (ltbP 300 (seconds_remaining st)); [ | contradiction].
  destruct (lebP (seconds_remaining st) 300); [lra | ].
  destruct (lebP (seconds_remaining st) 0); [lra | ].
  rewrite andb_false_r.
  destruct ((day st =? 3)%Z && Py.leb 18 (hour st)), s as [l [|] b];
    cbn; rewrite ?app_nil_r; reflexivity.
Qed.

(** ** What the engine hands to the clock *)

Lemma cycle_length_cases (g : Settings) :
  get_cycle_length_seconds g = REAL_SECONDS_72MIN
  \/ get_cycle_length_seconds g = REAL_SECONDS_24HR.
Proof.
  unfold get_cycle_length_seconds. destruct (String.eqb _ _); [left | right]; reflexivity.
Qed.

Lemma state_at_floor (p r : Q) (z : Z) :
  inject_Z z <= p * 3 -> p * 3 < inject_Z z + 1 ->
  day (state_of_progress p r) = Z.min 3 (z + 1)
  /\ hour (state_of_progress p r) == p * 72 - 24 * inject_Z z.
Proof.
  intros Hlo Hhi.
  assert (F : Qfloor (p * 72 / 24) = z).
  { apply floor_unique.
    - assert (E : p * 72 / 24 == p * 3) by field. rewrite E. exact Hlo.
    - assert (E : p * 72 / 24 == p * 3) by field. rewrite E.
      rewrite inject_Z_plus. exact Hhi. }
  rewrite day_of_progress, hour_of_progress, F. split; reflexivity.
Qed.

Lemma cycle_progress_zero (r c : Q) : r == 0 -> cycle_progress r c == 1.
Proof.
  intros Hr. unfold cycle_progress.
  assert (Hq : r / c == 0) by (unfold Qdiv; rewrite Hr; ring).
  by_cases; lra.
Qed.

(** With no time left the engine reports day 3, hour 0. *)
Lemma state_at_end (now offset epoch_end c : Q) :
  let st := termina_state now offset epoch_end c in
  seconds_remaining st <= 0 ->
  day st = 3%Z /\ hour st == 0 /\ total_hours st == 72 /\ Py.int (hour st) = 0%Z.
Proof.
  intros st H. subst st. unfold termina_state in *.
  set (r := remaining _ _) in *. cbn [seconds_remaining state_of_progress] in H.
  assert (Hr : r == 0).
  { pose proof (remaining_nonneg (now + offset) epoch_end) as Hnn.
    fold r in Hnn. lra. }
  pose proof (cycle_progress_zero r c Hr) as Hp.
  set (p := cycle_progress r c) in *.
  destruct (state_at_floor p r 3) as [Hd Hh].
  { change (inject_Z 3) with 3. lra. }
  { change (inject_Z 3) with 3. lra. }
  change (inject_Z 3) with 3 in Hh.
  assert (Hh0 : hour (state_of_progress p r) == 0) by (rewrite Hh; lra).
  repeat split.
  - exact Hd.
  - exact Hh0.
  - unfold state_of_progress, TERMINA_TOTAL_HOURS. cbn [total_hours]. lra.
  - rewrite (int_comp _ 0); [reflexivity | apply hour_range | exact Hh0].
Qed.

(** In the last 300 seconds of either cycle length the hour is 19 or later. *)
Lemma hour_int_in_countdown (g : Settings) (t : Q) :
  let st := get_termina_state g t in
  0 < seconds_remaining st -> seconds_remaining st <= 300 ->
  (19 <= Py.int (hour st))%Z.
Proof.
  intros st H0 H300. subst st. unfold get_termina_state, termina_state in *.
  set (r := remaining _ _) in *. cbn [seconds_remaining state_of_progress] in H0, H300.
  set (c := get_cycle_length_seconds g).
  assert (Hc : 4320 <= c).
  { subst c. destruct (cycle_length_cases g) as [E | E]; rewrite E;
      unfold REAL_SECONDS_72MIN, REAL_SECONDS_24HR; lra. }
  pose proof (cycle_progress_inside r c ltac:(lra) ltac:(lra) ltac:(lra)) as Hp.
  pose proof (cycle_progress_range r c) as [Hp0 Hp1].
  set (p := cycle_progress r c) in *.
  assert (Hp3 : 67 <= p * 72 /\ p * 72 < 72).
  { assert (Hpc : p * c == c - r) by exact Hp. nra. }
  destruct (state_at_floor p r 2) as [_ Hh].
  { change (inject_Z 2) with 2. lra. }
  { change (inject_Z 2) with 2. lra. }
  change (inject_Z 2) with 2 in Hh.
  rewrite int_floor by apply hour_range.
  rewrite <- (Qfloor_Z 19). apply Qfloor_resp_le.
  rewrite Hh. change (inject_Z 19) with 19. lra.
Qed.

(** ** The hour chime *)

Lemma hour_chime_same (g : Settings) (h : Z) : hour_chime g h h = [].
Proof. unfold hour_chime. now rewrite Z.eqb_refl. Qed.

Lemma hour_chime_other (g : Settings) (h last : Z) :
  h <> 6%Z -> h <> 18%Z -> hour_chime g h last = [].
Proof.
  intros H6 H18. unfold hour_chime.
  apply Z.eqb_neq in H6, H18. rewrite H6, H18. now destruct (negb _).
Qed.

Lemma hour_chime_filter (g : Settings) (h last : Z) :
  filter is_hour_start (hour_chime g h last) = hour_chime g h last.
Proof.
  unfold hour_chime. destruct (negb _); [ | reflexivity].
  destruct (_ || _); reflexivity.
Qed.

Lemma hour_chime_fires (g : Settings) (h last : Z) :
  hour_chime g h last = [play_sound AUDIO_HOUR (mute_hour g)]
  <-> h <> last /\ (h = 6 \/ h = 18)%Z.
Proof.
  unfold hour_chime.
  destruct (Z.eqb_spec h last) as [E | E]; cbn [negb].
  - split; [discriminate | intros [H _]; contradiction].
  - destruct (Z.eqb_spec h 6), (Z.eqb_spec h 18); cbn [orb];
      split; intros H; try discriminate; try reflexivity; try (split; [assumption | lia]).
    all: exfalso; lia.
Qed.

Lemma hour_chime_silent (g : Settings) (h last : Z) :
  hour_chime g h last = []
  <-> ~ (h <> last /\ (h = 6 \/ h = 18)%Z).
Proof.
  unfold hour_chime.
  destruct (Z.eqb_spec h last) as [E | E]; cbn [negb].
  - split; [intros _ [H _]; contradiction | reflexivity].
  - destruct (Z.eqb_spec h 6), (Z.eqb_spec h 18); cbn [orb];
      split; intros H; try discriminate; try reflexivity.
    all: try (exfalso; apply H; split; [assumption | lia]).
    intros [_ [? | ?]]; contradiction.
Qed.

(** The three cases of a run, by the seconds remaining. *)
Lemma remaining_cases (r : Q) : r <= 0 \/ (0 < r /\ r <= 300) \/ 300 < r.
Proof.
  destruct (Qlt_le_dec 0 r); [ | now left].
  destruct (Qlt_le_dec 300 r); [now right; right | right; left; split; assumption].
Qed.

(** The hour starts of a run are exactly what the chime test yields. *)
Lemma hour_starts_of_run (g : Settings) (s : CueState) (t : Q) :
  filter is_hour_start (calls (update_clock g s t))
  = hour_chime g (Py.int (hour (get_termina_state g t))) (last_hour_int s).
Proof.
  unfold update_clock.
  destruct (remaining_cases (seconds_remaining (get_termina_state g t)))
    as [H | [[H0 H300] | H]].
  - rewrite tick_reset by exact H. cbn [calls].
    destruct (state_at_end t (debug_time_offset g) (epoch_end_timestamp g)
                (get_cycle_length_seconds g) H) as (_ & _ & _ & Hi).
    fold (get_termina_state g t) in Hi. rewrite Hi.
    rewrite hour_chime_other by lia. reflexivity.
  - rewrite tick_countdown by assumption. cbn [calls].
    pose proof (hour_int_in_countdown g t H0 H300) as Hi. cbv zeta in Hi.
    rewrite hour_chime_other by lia.
    destruct (bells_playing s); reflexivity.
  - rewrite tick_above by exact H. cbn [calls].
    rewrite filter_app, hour_chime_filter.
    destruct (_ && negb _); reflexivity.
Qed.

(** Outside the last 300 seconds a run records the integer hour. *)
Lemma last_hour_after_run (g : Settings) (s : CueState) (t : Q) :
  let h := Py.int (hour (get_termina_state g t)) in
  (h < 19)%Z -> last_hour_int (cue (update_clock g s t)) = h.
Proof.
  intros h Hh. subst h. unfold update_clock.
  destruct (remaining_cases (seconds_remaining (get_termina_state g t)))
    as [H | [[H0 H300] | H]].
  - rewrite tick_reset by exact H. reflexivity.
  - pose proof (hour_int_in_countdown g t H0 H300) as Hi. cbv zeta in Hi. lia.
  - rewrite tick_above by exact H. reflexivity.
Qed.

Lemma hour_int_nonneg (g : Settings) (t : Q) :
  (0 <= Py.int (hour (get_termina_state g t)))%Z
  /\ Py.int (hour (get_termina_state g t)) = Qfloor (hour (get_termina_state g t)).
Proof.
  unfold get_termina_state, termina_state.
  set (st := state_of_progress _ _).
  destruct (hour_range (cycle_progress (remaining (t + debug_time_offset g)
                                          (epoch_end_timestamp g))
                          (get_cycle_length_seconds g))
              (remaining (t + debug_time_offset g) (epoch_end_timestamp g)))
    as [Hlo _].
  fold st in Hlo. rewrite int_floor by exact Hlo. split; [ | reflexivity].
  rewrite <- (Qfloor_Z 0). now apply Qfloor_resp_le.
Qed.

(** No hour start in any of the runs that follow while the integer hour
    stays at [h]. *)
Lemma no_chime_while_hour_stays (g : Settings) (h : Z) (ts : list Q) :
  (h < 19)%Z ->
  forall s, last_hour_int s = h ->
  Forall (fun t => Py.int (hour (get_termina_state g t)) = h) ts ->
  Forall (fun cs => filter is_hour_start cs = []) (snd (run g s ts)).
Proof.
  intros Hh. induction ts as [ | t ts IH]; intros s Hs Hall; cbn [run].
  - constructor.
  - apply Forall_cons_iff in Hall as [Ht Hrest].
    destruct (run g (cue (update_clock g s t)) ts) as [s' cs] eqn:E.
    cbn [snd]. constructor.
    + rewrite hour_starts_of_run, Ht, Hs. apply hour_chime_same.
    + specialize (IH (cue (update_clock g s t))).
      rewrite E in IH. apply IH; [ | exact Hrest].
      pose proof (last_hour_after_run g s t) as Hl. cbv zeta in Hl.
      rewrite Ht in Hl. now apply Hl.
Qed.

(** C1, as stated, fails: started 3959 seconds into a default 72-minute
    cycle and run again two seconds later, the clock is on a FinalNight tick
    (359 seconds remain, day 3, hour 18) and that run starts the final-night
    track and the hour chime alike. *)
Lemma chime_on_final_night_tick :
  let g := default_settings 0 in
  let s := cue (update_clock g initial_cue 3959) in
  s = mkCue 17 false false
  /\ spec_active_state (get_termina_state g 3961) = FinalNight
  /\ calls (update_clock g s 3961)
     = [stop_sound; play_sound AUDIO_FINAL false; play_sound AUDIO_HOUR false].
Proof. vm_compute. repeat split; reflexivity. Qed.

(** C1, amended: the four conditions are exclusive and taken in the order
    Reset, FinalCountdown, FinalNight, Normal.  A Reset run makes exactly
    one stop call and clears both flags; a FinalCountdown run makes only the
    bells start (after a stop, unless the bells already play) and leaves the
    last hour alone; a FinalNight run makes the final-track start (after a
    stop, unless it already plays) and then the hour-chime test and the
    last-hour update of the Normal branch as well; a Normal run makes the
    hour-chime test and the last-hour update only.  So an hour start can
    come only from a Normal or a FinalNight run. *)
Theorem cue_states_by_priority (g : Settings) (s : CueState) (t : Q) :
  let st := get_termina_state g t in
  let hour_int := Py.int (hour st) in
  let k := update_clock g s t in
  match spec_active_state st with
  | Reset =>
      seconds_remaining st <= 0
      /\ calls k = [stop_sound]
      /\ final_music_playing (cue k) = false /\ bells_playing (cue k) = false
  | FinalCountdown =>
      0 < seconds_remaining st <= 300
      /\ calls k = (if bells_playing s then []
                    else [stop_sound; play_sound AUDIO_BELLS (mute_final g)])
      /\ cue k = mkCue (last_hour_int s) false true
  | FinalNight =>
      300 < seconds_remaining st /\ day st = 3%Z /\ 18 <= hour st
      /\ calls k = (if final_music_playing s then []
                    else [stop_sound; play_sound AUDIO_FINAL (mute_final g)])
                   ++ hour_chime g hour_int (last_hour_int s)
      /\ cue k = mkCue hour_int true false
  | Normal =>
      300 < seconds_remaining st /\ ~ (day st = 3%Z /\ 18 <= hour st)
      /\ calls k = hour_chime g hour_int (last_hour_int s)
      /\ cue k = mkCue hour_int (final_music_playing s) false
  end
  /\ (filter is_hour_start (calls k) <> [] ->
      spec_active_state st = Normal \/ spec_active_state st = FinalNight).
Proof.
  intros st hour_int k.
  assert (Hmain :
    match spec_active_state st with
    | Reset =>
        seconds_remaining st <= 0
        /\ calls k = [stop_sound]
        /\ final_music_playing (cue k) = false /\ bells_playing (cue k) = false
    | FinalCountdown =>
        0 < seconds_remaining st <= 300
        /\ calls k = (if bells_playing s then []
                      else [stop_sound; play_sound AUDIO_BELLS (mute_final g)])
        /\ cue k = mkCue (last_hour_int s) false true
    | FinalNight =>
        300 < seconds_remaining st /\ day st = 3%Z /\ 18 <= hour st
        /\ calls k = (if final_music_playing s then []
                      else [stop_sound; play_sound AUDIO_FINAL (mute_final g)])
                     ++ hour_chime g hour_int (last_hour_int s)
        /\ cue k = mkCue hour_int true false
    | Normal =>
        300 < seconds_remaining st /\ ~ (day st = 3%Z /\ 18 <= hour st)
        /\ calls k = hour_chime g hour_int (last_hour_int s)
        /\ cue k = mkCue hour_int (final_music_playing s) false
    end).
  { subst k hour_int. unfold update_clock, spec_active_state. fold st.
    destruct (lebP (seconds_remaining st) 0) as [H0 | H0].
    - rewrite tick_reset by exact H0. cbn [calls cue final_music_playing bells_playing].
      destruct (state_at_end t (debug_time_offset g) (epoch_end_timestamp g)
                  (get_cycle_length_seconds g) H0) as (_ & _ & _ & Hi).
      fold (get_termina_state g t) in Hi. fold st in Hi. rewrite Hi.
      rewrite hour_chime_other by lia. repeat split; exact H0.
    - destruct (lebP (seconds_remaining st) 300) as [H300 | H300].
      + rewrite tick_countdown by lra. cbn [calls cue].
        repeat split; first [lra | exact H300 | reflexivity].
      + rewrite tick_above by lra. cbn [calls cue].
        destruct (Z.eqb_spec (day st) 3) as [Hd | Hd]; cbn [andb].
        * destruct (lebP 18 (hour st)) as [Hh | Hh]; cbn [andb orb negb].
          -- rewrite orb_true_r.
             repeat split; try lra; try assumption.
             destruct (final_music_playing s); reflexivity.
          -- rewrite orb_false_r.
             repeat split; try lra; try (intros [? ?]; contradiction).
        * rewrite orb_false_r.
          repeat split; try lra; try (intros [? ?]; contradiction). }
  split; [exact Hmain | ].
  intros Hf. destruct (spec_active_state st); auto; exfalso; apply Hf.
  - destruct Hmain as (_ & Hc & _). rewrite Hc. reflexivity.
  - destruct Hmain as (_ & Hc & _). rewrite Hc. destruct (bells_playing s); reflexivity.
Qed.

Lemma cue_states_by_priority_witness :
  spec_active_state (get_termina_state (default_settings 0) 3961) = Normal
  \/ spec_active_state (get_termina_state (default_settings 0) 3961) = FinalNight.
Proof.
  apply (cue_states_by_priority (default_settings 0) (mkCue 17 false false) 3961).
  vm_compute. discriminate.
Defined.

(** C3: the hour chime is started exactly once per crossing into hour 6 or
    18.  The integer hour is the floor of the hour; a run makes one hour
    start if the integer hour differs from the last one seen and is 6 or
    18, and none otherwise; and no run that follows makes one while the
    integer hour stays where it is. *)
Theorem hour_chime_once_per_crossing (g : Settings) (s : CueState) (t : Q) :
  let st := get_termina_state g t in
  let hour_int := Py.int (hour st) in
  let k := update_clock g s t in
  hour_int = Qfloor (hour st)
  /\ (filter is_hour_start (calls k) = [play_sound AUDIO_HOUR (mute_hour g)]
      <-> hour_int <> last_hour_int s /\ (hour_int = 6 \/ hour_int = 18)%Z)
  /\ (filter is_hour_start (calls k) = []
      <-> ~ (hour_int <> last_hour_int s /\ (hour_int = 6 \/ hour_int = 18)%Z))
  /\ (forall ts : list Q,
        (hour_int = 6 \/ hour_int = 18)%Z ->
        Forall (fun t' => Py.int (hour (get_termina_state g t')) = hour_int) ts ->
        Forall (fun cs => filter is_hour_start cs = []) (snd (run g (cue k) ts))).
Proof.
  intros st hour_int k. subst st hour_int k.
  split; [apply hour_int_nonneg | ].
  rewrite hour_starts_of_run.
  split; [apply hour_chime_fires | split].
  - apply hour_chime_silent.
  - intros ts H618 Hall.
    apply (no_chime_while_hour_stays g (Py.int (hour (get_termina_state g t)))).
    + lia.
    + pose proof (last_hour_after_run g s t) as Hl. cbv zeta in Hl. apply Hl. lia.
    + exact Hall.
Qed.

Lemma hour_chime_once_per_crossing_witness :
  Forall (fun cs => filter is_hour_start cs = [])
         (snd (run (default_settings 0)
                   (cue (update_clock (default_settings 0) (mkCue 17 false false) 3961))
                   [3962; 3963])).
Proof.
  apply (hour_chime_once_per_crossing (default_settings 0) (mkCue 17 false false) 3961).
  - right. vm_compute. reflexivity.
  - repeat constructor.
Defined.

(** C10: the last hour starts at -1, which no integer hour equals; so when
    the first run finds the integer hour at 6 or 18 it starts the hour
    chime, with no crossing before it. *)
Theorem chime_on_first_tick (g : Settings) (t : Q) :
  let hour_int := Py.int (hour (get_termina_state g t)) in
  last_hour_int initial_cue = (-1)%Z
  /\ hour_int <> last_hour_int initial_cue
  /\ ((hour_int = 6 \/ hour_int = 18)%Z ->
      filter is_hour_start (calls (update_clock g initial_cue t))
      = [play_sound AUDIO_HOUR (mute_hour g)]).
Proof.
  intros hour_int. subst hour_int.
  pose proof (hour_int_nonneg g t) as [Hnn _].
  split; [reflexivity | split].
  - cbn [initial_cue last_hour_int]. lia.
  - intros H618. rewrite hour_starts_of_run. apply hour_chime_fires.
    split; [cbn [initial_cue last_hour_int]; lia | exact H618].
Qed.

Lemma chime_on_first_tick_witness :
  filter is_hour_start (calls (update_clock (default_settings 0) initial_cue 1090))
  = [play_sound AUDIO_HOUR false].
Proof.
  apply (chime_on_first_tick (default_settings 0) 1090).
  right. vm_compute. reflexivity.
Defined.

(** ** The final countdown *)

Lemma bells_off_outside_countdown (g : Settings) (s : CueState) (t : Q) :
  ~ in_countdown g t -> bells_playing (cue (update_clock g s t)) = false.
Proof.
  intros Hout. unfold update_clock, in_countdown in *.
  destruct (remaining_cases (seconds_remaining (get_termina_state g t)))
    as [H | [[H0 H300] | H]].
  - rewrite tick_reset by exact H. reflexivity.
  - exfalso. apply Hout. split; assumption.
  - rewrite tick_above by exact H. reflexivity.
Qed.

Lemma entering_bells_off (s : CueState) : entering s -> bells_playing s = false.
Proof.
  intros [-> | (g' & s0 & tp & Hout & ->)]; [reflexivity | ].
  now apply bells_off_outside_countdown.
Qed.

(** While the bells play and the clock stays in the countdown, no run makes
    a call. *)
Lemma run_in_countdown_playing (g : Settings) (ts : list Q) :
  forall s, bells_playing s = true ->
  Forall (in_countdown g) ts ->
  bells_playing (fst (run g s ts)) = true
  /\ snd (run g s ts) = repeat [] (List.length ts).
Proof.
  induction ts as [ | t ts IH]; intros s Hs Hall; cbn [run].
  - split; [exact Hs | reflexivity].
  - apply Forall_cons_iff in Hall as [[H0 H300] Hrest].
    specialize (IH (cue (update_clock g s t))).
    destruct (run g (cue (update_clock g s t)) ts) as [s' cs].
    cbn [fst snd] in *. unfold update_clock in *.
    rewrite tick_countdown in * by assumption. cbn [cue calls] in *.
    destruct (IH eq_refl Hrest) as [IH1 IH2].
    rewrite Hs, IH2. split; [exact IH1 | reflexivity].
Qed.

(** C2: when the clock enters the last 300 seconds and stays there, the
    entering run makes a stop call and then the one bells start, and sets
    the bells flag; the runs after it make no call at all; and the run on
    which no time remains makes exactly one stop call and clears both
    flags. *)
Theorem bells_once_in_countdown
    (g : Settings) (s : CueState) (t0 : Q) (ts : list Q) (tz : Q) :
  entering s ->
  Forall (in_countdown g) (t0 :: ts) ->
  seconds_remaining (get_termina_state g tz) <= 0 ->
  let first := update_clock g s t0 in
  let s1 := fst (run g s (t0 :: ts)) in
  let last := update_clock g s1 tz in
  calls first = [stop_sound; play_sound AUDIO_BELLS (mute_final g)]
  /\ bells_playing (cue first) = true
  /\ snd (run g s (t0 :: ts))
     = [stop_sound; play_sound AUDIO_BELLS (mute_final g)] :: repeat [] (List.length ts)
  /\ bells_playing s1 = true
  /\ calls last = [stop_sound]
  /\ bells_playing (cue last) = false
  /\ final_music_playing (cue last) = false.
Proof.
  intros Hent Hall Hz. cbv zeta.
  apply entering_bells_off in Hent.
  apply Forall_cons_iff in Hall as [[H0 H300] Hrest].
  assert (Hfirst : update_clock g s t0
                   = mkTick (mkCue (last_hour_int s) false true)
                       [stop_sound; play_sound AUDIO_BELLS (mute_final g)]
                       (countdown_text g (get_termina_state g t0))).
  { unfold update_clock. rewrite tick_countdown by assumption. now rewrite Hent. }
  destruct (run_in_countdown_playing g ts (mkCue (last_hour_int s) false true)
              eq_refl Hrest) as [Hb Hc].
  assert (Hlast : forall s1,
             update_clock g s1 tz
             = mkTick (mkCue 0 false false) [stop_sound]
                 ("DAWN OF A NEW DAY" ++ debug_info g (get_termina_state g tz))).
  { intros s1. unfold update_clock. rewrite tick_reset by exact Hz.
    destruct (state_at_end tz (debug_time_offset g) (epoch_end_timestamp g)
                (get_cycle_length_seconds g) Hz) as (_ & _ & _ & Hi).
    fold (get_termina_state g tz) in Hi. rewrite Hi.
    now rewrite hour_chime_other by lia. }
  rewrite Hlast. cbn [run]. rewrite Hfirst. cbn [cue calls].
  destruct (run g (mkCue (last_hour_int s) false true) ts) as [s1 cs].
  cbn [fst snd] in *. rewrite Hc. repeat split; try reflexivity. exact Hb.
Qed.

Lemma bells_once_in_countdown_witness :
  snd (run (default_settings 0) initial_cue [4070; 4100; 4200])
  = [[stop_sound; play_sound AUDIO_BELLS false]; []; []].
Proof.
  apply (bells_once_in_countdown (default_settings 0) initial_cue 4070
           [4100; 4200] 4320).
  - left. reflexivity.
  - repeat constructor; vm_compute; first [reflexivity | discriminate].
  - vm_compute. discriminate.
Defined.

(** ** The mute flags *)

(** C9: the mute flags change neither the globals a run leaves nor the text
    it shows: under any two choices of the flags the cue state and the label
    are the same, and the calls are the same calls in the same order, each
    start carrying the flag of its own track; a muted start reaches the mixer
    with nothing, an unmuted one with its load and play. *)
Theorem mute_flags_only_mute
    (g : Settings) (s : CueState) (t : Q) (mh mf mh' mf' : bool) :
  let k := update_clock (set_mutes mh mf g) s t in
  let k' := update_clock (set_mutes mh' mf' g) s t in
  cue k = cue k'
  /\ label_text k = label_text k'
  /\ calls k = map (mute_call mh mf) (calls k')
  /\ (forall file, mixer_ops (play_sound file true) = []
                   /\ mixer_ops (play_sound file false) = [music_load file; music_play]).
Proof.
  intros k k'. subst k k'. unfold update_clock.
  change (get_termina_state (set_mutes mh mf g) t) with (get_termina_state g t).
  change (get_termina_state (set_mutes mh' mf' g) t) with (get_termina_state g t).
  set (st := get_termina_state g t).
  split; [ | split; [ | split; [ | intros file; split; reflexivity]]];
    destruct (remaining_cases (seconds_remaining st)) as [H | [[H0 H300] | H]];
    rewrite ?tick_reset, ?tick_countdown, ?tick_above by assumption;
    try reflexivity; cbn [calls].
  - unfold hour_chime. destruct (negb _); [ | reflexivity].
    destruct (_ || _); reflexivity.
  - destruct (bells_playing s); reflexivity.
  - rewrite map_app. f_equal.
    + destruct (_ && negb _); reflexivity.
    + unfold hour_chime. destruct (negb _); [ | reflexivity].
      destruct (_ || _); reflexivity.
Qed.

(** ** Point evaluations *)

Lemma total_hours_of_progress (p r : Q) :
  total_hours (state_of_progress p r) = p * 72.
Proof. reflexivity. Qed.

Lemma remaining_of_progress (p r : Q) :
  seconds_remaining (state_of_progress p r) = r.
Proof. reflexivity. Qed.

(** The default 72-minute cycle that ends 4320 seconds after [T0], read [x]
    seconds after [T0]. *)
Lemma short_cycle_state (g : Settings) (T0 t x : Q) :
  cycle_mode g = "72min"%string ->
  epoch_end_timestamp g == T0 + 4320 ->
  debug_time_offset g == 0 ->
  t == T0 + x -> 0 <= x -> x <= 4320 ->
  let st := get_termina_state g t in
  seconds_remaining st == 4320 - x
  /\ total_hours st * 60 == x
  /\ forall z : Z,
       inject_Z z * 1440 <= x -> x < (inject_Z z + 1) * 1440 ->
       day st = Z.min 3 (z + 1)
       /\ hour st == total_hours st - 24 * inject_Z z
       /\ Py.int (hour st) = Qfloor (total_hours st - 24 * inject_Z z).
Proof.
  intros Hm He Ho Ht Hx0 Hx1 st. subst st.
  unfold get_termina_state, termina_state, get_cycle_length_seconds.
  rewrite Hm. cbn [String.eqb Ascii.eqb Bool.eqb].
  unfold REAL_SECONDS_72MIN.
  set (r := remaining _ _).
  assert (Hr : r == 4320 - x).
  { subst r. rewrite remaining_before; lra. }
  pose proof (cycle_progress_inside r (72 * 60) ltac:(lra) ltac:(lra) ltac:(lra)) as Hp.
  set (p := cycle_progress r (72 * 60)) in *.
  rewrite remaining_of_progress, total_hours_of_progress.
  split; [exact Hr | split; [lra | ]].
  intros z Hlo Hhi.
  destruct (state_at_floor p r z) as [Hd Hh]; [lra | lra | ].
  split; [exact Hd | split; [exact Hh | ]].
  rewrite int_floor by apply hour_range. now rewrite Hh.
Qed.

(** A run with more than 300 seconds left, before day 3 and with no change
    of the hour to 6 or 18: no call. *)
Lemma tick_quiet (g : Settings) (s : CueState) (st : TerminaState) :
  300 < seconds_remaining st -> day st <> 3%Z ->
  Py.int (hour st) <> 6%Z -> Py.int (hour st) <> 18%Z ->
  update_clock_on g s st
  = mkTick (mkCue (Py.int (hour st)) (final_music_playing s) false) []
           (normal_text g st).
Proof.
  intros Hr Hd H6 H18. rewrite tick_above by exact Hr.
  apply Z.eqb_neq in Hd. rewrite Hd. cbn [andb].
  rewrite orb_false_r, hour_chime_other by assumption. reflexivity.
Qed.

(** C6: point evaluations.  For a positive cycle length the engine gives
    progress 0, day 1, hour 0 one cycle length before the epoch end, and 0
    seconds remaining, day 3 and an hour below 24 at the epoch end.  In the
    72-minute cycle that ends 4320 seconds after T0: day 1, hour 0 at T0;
    day 2, hour 12, 36 total hours at T0 + 2160; 250 seconds remaining at
    T0 + 4070, a FinalCountdown run that makes the one bells start; a Reset
    run at T0 + 4320 that makes a stop call and shows the end-of-cycle
    text. *)
Theorem point_evaluations :
  (forall now offset epoch_end c : Q,
     0 < c -> now + offset == epoch_end - c ->
     let st := termina_state now offset epoch_end c in
     cycle_progress (seconds_remaining st) c == 0
     /\ day st = 1%Z /\ hour st == 0)
  /\ (forall now offset epoch_end c : Q,
        0 < c -> now + offset == epoch_end ->
        let st := termina_state now offset epoch_end c in
        seconds_remaining st == 0 /\ day st = 3%Z /\ hour st < 24)
  /\ (forall (T0 : Q) (g : Settings),
        cycle_mode g = "72min"%string ->
        epoch_end_timestamp g == T0 + 4320 ->
        debug_time_offset g == 0 ->
        let st0 := get_termina_state g T0 in
        let st1 := get_termina_state g (T0 + 2160) in
        let st2 := get_termina_state g (T0 + 4070) in
        let st3 := get_termina_state g (T0 + 4320) in
        let s3 := fst (run g initial_cue [T0; T0 + 2160; T0 + 4070]) in
        (day st0 = 1%Z /\ hour st0 == 0)
        /\ (day st1 = 2%Z /\ hour st1 == 12 /\ total_hours st1 == 36)
        /\ (seconds_remaining st2 == 250 /\ spec_active_state st2 = FinalCountdown)
        /\ spec_active_state st3 = Reset
        /\ snd (run g initial_cue [T0; T0 + 2160; T0 + 4070; T0 + 4320])
           = [[]; []; [stop_sound; play_sound AUDIO_BELLS (mute_final g)];
              [stop_sound]]
        /\ bells_playing s3 = true
        /\ label_text (update_clock g s3 (T0 + 4320))
           = ("DAWN OF A NEW DAY" ++ debug_info g st3)%string).
Proof.
  split; [ | split].
  - intros now offset epoch_end c Hc Hnow st. subst st.
    unfold termina_state. set (r := remaining _ _).
    rewrite remaining_of_progress.
    assert (Hr : r == c) by (subst r; rewrite remaining_before; lra).
    pose proof (cycle_progress_inside r c ltac:(lra) ltac:(lra) ltac:(lra)) as Hp.
    pose proof (cycle_progress_range r c) as [Hp0 _].
    set (p := cycle_progress r c) in *.
    assert (Hz : p == 0) by nra.
    destruct (state_at_floor p r 0) as [Hd Hh].
    { change (inject_Z 0) with 0. lra. }
    { change (inject_Z 0) with 0. lra. }
    change (inject_Z 0) with 0 in Hh.
    split; [exact Hz | split; [exact Hd | rewrite Hh; lra]].
  - intros now offset epoch_end c Hc Hnow st.
    assert (Hr : seconds_remaining st == 0).
    { subst st. unfold termina_state. rewrite remaining_of_progress.
      apply remaining_past. lra. }
    destruct (state_at_end now offset epoch_end c ltac:(fold st; lra))
      as (Hd & Hh & _).
    fold st in Hd, Hh. split; [exact Hr | split; [exact Hd | lra]].
  - intros T0 g Hm He Ho st0 st1 st2 st3 s3.
    destruct (short_cycle_state g T0 T0 0 Hm He Ho) as (Hr0 & Ht0 & Hf0); try lra.
    destruct (short_cycle_state g T0 (T0 + 2160) 2160 Hm He Ho) as (Hr1 & Ht1 & Hf1);
      try lra.
    destruct (short_cycle_state g T0 (T0 + 4070) 4070 Hm He Ho) as (Hr2 & _ & _);
      try lra.
    destruct (short_cycle_state g T0 (T0 + 4320) 4320 Hm He Ho) as (Hr3 & _ & _);
      try lra.
    fold st0 in Hr0, Ht0, Hf0. fold st1 in Hr1, Ht1, Hf1.
    fold st2 in Hr2. fold st3 in Hr3.
    destruct (Hf0 0%Z) as (Hd0 & Hh0 & Hi0);
      [change (inject_Z 0) with 0; lra | change (inject_Z 0) with 0; lra | ].
    destruct (Hf1 1%Z) as (Hd1 & Hh1 & Hi1);
      [change (inject_Z 1) with 1; lra | change (inject_Z 1) with 1; lra | ].
    change (inject_Z 0) with 0 in Hh0, Hi0. change (inject_Z 1) with 1 in Hh1, Hi1.
    assert (Hh0' : hour st0 == 0) by lra.
    assert (Hh1' : hour st1 == 12) by lra.
    assert (Hi0' : Py.int (hour st0) = 0%Z).
    { rewrite Hi0. rewrite <- Hh0, Hh0'. reflexivity. }
    assert (Hi1' : Py.int (hour st1) = 12%Z).
    { rewrite Hi1. rewrite <- Hh1, Hh1'. reflexivity. }
    assert (Hk0 : update_clock g initial_cue T0
                  = mkTick (mkCue 0 false false) [] (normal_text g st0)).
    { unfold update_clock. fold st0. rewrite tick_quiet, Hi0'; try reflexivity; lia || lra. }
    assert (Hk1 : update_clock g (mkCue 0 false false) (T0 + 2160)
                  = mkTick (mkCue 12 false false) [] (normal_text g st1)).
    { unfold update_clock. fold st1. rewrite tick_quiet, Hi1'; try reflexivity; lia || lra. }
    assert (Hk2 : update_clock g (mkCue 12 false false) (T0 + 4070)
                  = mkTick (mkCue 12 false true)
                      [stop_sound; play_sound AUDIO_BELLS (mute_final g)]
                      (countdown_text g st2)).
    { unfold update_clock. fold st2. rewrite tick_countdown by lra. reflexivity. }
    destruct (state_at_end (T0 + 4320) (debug_time_offset g) (epoch_end_timestamp g)
                (get_cycle_length_seconds g)) as (_ & _ & _ & Hi3).
    { fold (get_termina_state g (T0 + 4320)). fold st3. lra. }
    fold (get_termina_state g (T0 + 4320)) in Hi3. fold st3 in Hi3.
    assert (Hk3 : update_clock g (mkCue 12 false true) (T0 + 4320)
                  = mkTick (mkCue 0 false false) [stop_sound]
                      ("DAWN OF A NEW DAY" ++ debug_info g st3)).
    { unfold update_clock. fold st3. rewrite tick_reset, Hi3 by lra. reflexivity. }
    assert (Hs3 : s3 = mkCue 12 false true).
    { subst s3. cbn [run]. rewrite Hk0. cbn [cue calls]. rewrite Hk1. cbn [cue calls].
      rewrite Hk2. reflexivity. }
    repeat split.
    + rewrite Hd0. reflexivity.
    + exact Hh0'.
    + rewrite Hd1. reflexivity.
    + exact Hh1'.
    + lra.
    + exact Hr2.
    + unfold spec_active_state.
      destruct (lebP (seconds_remaining st2) 0); [lra | ].
      destruct (lebP (seconds_remaining st2) 300); [reflexivity | lra].
    + unfold spec_active_state.
      destruct (lebP (seconds_remaining st3) 0); [reflexivity | lra].
    + cbn [run]. rewrite Hk0. cbn [cue calls]. rewrite Hk1. cbn [cue calls].
      rewrite Hk2. cbn [cue calls]. rewrite Hk3. reflexivity.
    + rewrite Hs3. reflexivity.
    + rewrite Hs3, Hk3. reflexivity.
Qed.

Lemma point_evaluations_witness :
  (cycle_progress (seconds_remaining (termina_state 100 0 4420 4320)) 4320 == 0
   /\ day (termina_state 100 0 4420 4320) = 1%Z
   /\ hour (termina_state 100 0 4420 4320) == 0)
  /\ (seconds_remaining (termina_state 4420 0 4420 4320) == 0
      /\ day (termina_state 4420 0 4420 4320) = 3%Z
      /\ hour (termina_state 4420 0 4420 4320) < 24)
  /\ snd (run (default_settings 7) initial_cue
            [7; 7 + 2160; 7 + 4070; 7 + 4320])
     = [[]; []; [stop_sound; play_sound AUDIO_BELLS false]; [stop_sound]].
Proof.
  destruct point_evaluations as (H1 & H2 & H3).
  split; [ | split].
  - apply (H1 100 0 4420 4320); reflexivity.
  - apply (H2 4420 0 4420 4320); reflexivity.
  - apply (H3 7 (default_settings 7)); reflexivity.
Defined.

(** ** Settings window *)

(** The engine over floats is the engine over numbers whenever the debug
    offset is a number. *)
Lemma float_engine_on_numbers (time_now offset epoch_end c : Q) :
  Fl.termina_state time_now (Finite offset) epoch_end c
  = Ok (float_state (termina_state time_now offset epoch_end c)).
Proof.
  unfold Fl.termina_state, termina_state, state_of_progress, remaining,
    cycle_progress, float_state.
  cbn [Fl.add Fl.sub Fl.opp Fl.ltb].
  change (epoch_end + - (time_now + offset)) with (epoch_end - (time_now + offset)).
  set (d := epoch_end - (time_now + offset)).
  destruct (lebP c 0) as [Hc | Hc].
  - destruct (Py.ltb d 0); reflexivity.
  - unfold Fl.truediv.
    destruct (Qeq_bool c 0) eqn:E.
    { apply Qeq_bool_eq in E. exfalso. apply Hc. lra. }
    destruct (Py.ltb d 0); cbn [bind Fl.sub Fl.add Fl.opp Fl.ltb Fl.gtb];
      match goal with
      | |- context [Py.ltb (1 + - ?q) 0] =>
          change (1 + - q) with (1 - q); destruct (Py.ltb (1 - q) 0)
      end;
      cbn [Fl.gtb];
      match goal with
      | |- context [Py.ltb 1 ?x] => destruct (Py.ltb 1 x)
      end; reflexivity.
Qed.

(** With [nan] as the debug offset every read of the state raises
    [ValueError], at the [int()] of line 181. *)
Lemma nan_offset_raises (time_now epoch_end c : Q) :
  0 < c ->
  Fl.termina_state time_now (Special NotANumber) epoch_end c = Raise ValueError.
Proof.
  intros Hc. unfold Fl.termina_state. cbn [Fl.add Fl.sub Fl.opp Fl.flip Fl.ltb].
  destruct (lebP c 0) as [H | H]; [lra | ].
  unfold Fl.truediv. destruct (Qeq_bool c 0) eqn:E.
  { apply Qeq_bool_eq in E. lra. }
  destruct (Py.ltb c 0); reflexivity.
Qed.

(** C8, at the entry the code gets wrong: the offset entry "nan" is not a
    number of seconds, yet [float] takes it, so Save stores it as the debug
    offset and prints the two lines of success and no line of error; from
    then on every read of the state by [update_clock] raises [ValueError],
    for any clock reading, and the omitted rest of the run, the re-arming of
    the timer included, is never reached. *)
Theorem nan_offset_accepted_then_clock_raises
    (str_strip : string -> string)
    (int_of_str : string -> option Z) (float_of_str : string -> option PyFloat)
    (time_now : Q) (today_at next_day_at : Z -> Z -> Q)
    (f : Form) (p : Globals) :
  let o := str_strip (debug_offset_entry f) in
  let out := save_settings str_strip int_of_str float_of_str time_now
               today_at next_day_at f p in
  o <> EmptyString ->
  float_of_str o = Some (Special NotANumber) ->
  offset_of (fst out) = Special NotANumber
  /\ In (DebugOffsetSet (Special NotANumber)) (snd out)
  /\ In (DebugOffsetSetTo (Special NotANumber)) (snd out)
  /\ ~ In (InvalidDebugOffset o) (snd out)
  /\ forall t : Q, get_termina_state_float (fst out) t = Raise ValueError.
Proof.
  intros o out Ho Hparse. subst out. unfold save_settings. fold o.
  rewrite Hparse. destruct o as [ | c o']; [contradiction | ]. cbn [truthy].
  set (t := str_strip (epoch_entry f)).
  assert (Hc : forall g, 0 < get_cycle_length_seconds g).
  { intros g. destruct (cycle_length_cases g) as [E | E]; rewrite E; reflexivity. }
  destruct (truthy t); [destruct (parse_time int_of_str t) as [[hh mm] | ] | ];
    cbn [store_offset apply_time fst snd offset_of offset_special settings];
    (split; [reflexivity | ]);
    (split; [apply in_or_app; right; now left | ]);
    (split; [apply in_or_app; right; right; now left | ]);
    (split; [ | intros t0; unfold get_termina_state_float;
                cbn [offset_of offset_special settings];
                apply nan_offset_raises, Hc]).
  - intros [H | [H | [H | [H | []]]]]; discriminate.
  - intros [H | [H | [H | []]]]; discriminate.
  - intros [H | [H | []]]; discriminate.
Qed.

Lemma nan_offset_accepted_then_clock_raises_witness :
  let out := save_settings (fun s => s) digits_only digits_or_special 0
               seconds_at seconds_next_day_at
               (mkForm "" "72min" false false false false false "nan")
               (mkGlobals (default_settings 0) initial_cue None) in
  snd out = [DebugOffsetSet (Special NotANumber);
             DebugOffsetSetTo (Special NotANumber)]
  /\ offset_of (fst out) = Special NotANumber
  /\ get_termina_state_float (fst out) 100 = Raise ValueError.
Proof.
  destruct (nan_offset_accepted_then_clock_raises (fun s => s) digits_only
              digits_or_special 0 seconds_at seconds_next_day_at
              (mkForm "" "72min" false false false false false "nan")
              (mkGlobals (default_settings 0) initial_cue None))
    as (H1 & _ & _ & _ & H5); [discriminate | reflexivity | ].
  split; [reflexivity | split; [exact H1 | exact (H5 100)]].
Defined.

(** X23: when the time entry is not empty and its parse raises (an
    [int()] that fails, a wrong number of fields, an hour or minute out of
    range), Save prints the invalid-time line and leaves the epoch end as it
    was; when the offset entry is not empty and [float()] raises, Save
    prints the invalid-offset line and leaves the debug offset as it was;
    and Save never touches the globals of the main loop. *)
Theorem rejected_entries_change_nothing
    (str_strip : string -> string)
    (int_of_str : string -> option Z) (float_of_str : string -> option PyFloat)
    (time_now : Q) (today_at next_day_at : Z -> Z -> Q)
    (f : Form) (p : Globals) :
  let t := str_strip (epoch_entry f) in
  let o := str_strip (debug_offset_entry f) in
  let out := save_settings str_strip int_of_str float_of_str time_now
               today_at next_day_at f p in
  (t <> EmptyString -> parse_time int_of_str t = None ->
     epoch_end_timestamp (settings (fst out)) = epoch_end_timestamp (settings p)
     /\ In (InvalidTimeFormat t) (snd out))
  /\ (o <> EmptyString -> float_of_str o = None ->
        offset_of (fst out) = offset_of p
        /\ debug_time_offset (settings (fst out)) = debug_time_offset (settings p)
        /\ In (InvalidDebugOffset o) (snd out))
  /\ cue_globals (fst out) = cue_globals p.
Proof.
  intros t o out. subst out. unfold save_settings. fold t. fold o.
  split; [ | split].
  - intros Ht Hparse. rewrite Hparse.
    destruct t as [ | c t']; [contradiction | ]. cbn [truthy].
    destruct (truthy o); [destruct (float_of_str o) as [[q | x] | ] | ]; cbn;
      (split; [reflexivity | now left]).
  - intros Ho Hparse. rewrite Hparse.
    destruct o as [ | c o']; [contradiction | ]. cbn [truthy].
    destruct (truthy t).
    + destruct (parse_time int_of_str t) as [[hh mm] | ]; cbn;
        (split; [reflexivity | split; [reflexivity | ]]).
      * right. right. now left.
      * right. now left.
    + cbn. split; [reflexivity | split; [reflexivity | now left]].
  - destruct (truthy t); [destruct (parse_time int_of_str t) as [[hh mm] | ] | ];
      (destruct (truthy o); [destruct (float_of_str o) as [[q | x] | ] | ]);
      reflexivity.
Qed.

Lemma rejected_entries_change_nothing_witness :
  let f := mkForm "25:99" "24hr" true false false false false "12.x" in
  let p := mkGlobals (default_settings 0) initial_cue None in
  let out := save_settings (fun s => s) digits_only digits_only_Q 0
               seconds_at seconds_next_day_at f p in
  (epoch_end_timestamp (settings (fst out)) = epoch_end_timestamp (settings p)
   /\ In (InvalidTimeFormat "25:99") (snd out))
  /\ (offset_of (fst out) = offset_of p
      /\ debug_time_offset (settings (fst out)) = debug_time_offset (settings p)
      /\ In (InvalidDebugOffset "12.x") (snd out))
  /\ cue_globals (fst out) = cue_globals p.
Proof.
  intros f p out.
  destruct (rejected_entries_change_nothing (fun s => s) digits_only digits_only_Q 0
              seconds_at seconds_next_day_at f p) as (H1 & H2 & H3).
  split; [ | split].
  - apply H1; [discriminate | reflexivity].
  - apply H2; [discriminate | reflexivity].
  - exact H3.
Defined.


(** * Further properties of the code *)

(** ** Floors between two integers *)

Lemma floor_between (x : Q) (a b : Z) :
  inject_Z a <= x -> x < inject_Z b -> (a <= Qfloor x < b)%Z.
Proof.
  intros Hlo Hhi. split.
  - rewrite <- (Qfloor_Z a). now apply Qfloor_resp_le.
  - assert (H : inject_Z (Qfloor x) < inject_Z b).
    { eapply Qle_lt_trans; [apply Qfloor_le | exact Hhi]. }
    now rewrite <- Zlt_Qlt in H.
Qed.

(** ** The time engine, end to end *)

(** X1: the total hours stay within 0 and 72; while they are below 72 they
    are 24 hours for each day gone plus the hour of the day; at 72 the day
    is held at 3 and the hour wraps to 0. *)
Theorem total_hours_decompose (now offset epoch_end c : Q) :
  let st := termina_state now offset epoch_end c in
  0 <= total_hours st /\ total_hours st <= 72
  /\ (total_hours st < 72 ->
      total_hours st == 24 * inject_Z (day st - 1) + hour st)
  /\ (72 <= total_hours st -> day st = 3%Z /\ hour st == 0).
Proof.
  intros st. subst st. unfold termina_state.
  set (r := remaining _ _). 
  pose proof (cycle_progress_range r c) as [Hp0 Hp1].
  set (p := cycle_progress r c) in *.
  rewrite total_hours_of_progress.
  pose proof (Qfloor_le (p * 3)) as Hlo. pose proof (Qlt_floor (p * 3)) as Hhi.
  rewrite inject_Z_plus in Hhi. change (inject_Z 1) with 1 in Hhi.
  destruct (state_at_floor p r (Qfloor (p * 3)) Hlo Hhi) as [Hd Hh].
  assert (Hz : (0 <= Qfloor (p * 3) < 4)%Z).
  { apply floor_between; [change (inject_Z 0) with 0 | change (inject_Z 4) with 4]; lra. }
  split; [lra | split; [lra | split]].
  - intros Hlt.
    assert (Hz2 : (Qfloor (p * 3) < 3)%Z).
    { apply floor_between with (a := 0%Z);
        [change (inject_Z 0) with 0 | change (inject_Z 3) with 3]; lra. }
    rewrite Hd, Hh. rewrite Z.min_r by lia.
    replace (Qfloor (p * 3) + 1 - 1)%Z with (Qfloor (p * 3)) by lia. lra.
  - intros Hge.
    assert (Hz3 : Qfloor (p * 3) = 3%Z).
    { apply floor_unique; [change (inject_Z 3) with 3 | change (inject_Z (3 + 1)) with 4]; lra. }
    rewrite Hd, Hh, Hz3. split; [reflexivity | change (inject_Z 3) with 3; lra].
Qed.

Lemma total_hours_decompose_witness :
  total_hours (termina_state 2160 0 4320 4320)
  == 24 * inject_Z (day (termina_state 2160 0 4320 4320) - 1)
     + hour (termina_state 2160 0 4320 4320).
Proof.
  apply (total_hours_decompose 2160 0 4320 4320). reflexivity.
Defined.

(** X2: a reading a full cycle length or more before the epoch end shows
    day 1, hour 0 and no hours gone, whatever the distance, while the seconds
    remaining keep the full distance. *)
Theorem before_cycle_start (now offset epoch_end c : Q) :
  0 < c -> c <= epoch_end - (now + offset) ->
  let st := termina_state now offset epoch_end c in
  day st = 1%Z /\ hour st == 0 /\ total_hours st == 0
  /\ seconds_remaining st == epoch_end - (now + offset).
Proof.
  intros Hc Hfar st. subst st. unfold termina_state.
  set (r := remaining _ _).
  assert (Hr : r == epoch_end - (now + offset)).
  { subst r. apply remaining_before. lra. }
  assert (Hp : cycle_progress r c == 0).
  { unfold cycle_progress.
    assert (Hq : 1 <= r / c) by (apply Qle_shift_div_l; lra).
    by_cases; lra. }
  set (p := cycle_progress r c) in *.
  destruct (state_at_floor p r 0) as [Hd Hh];
    [change (inject_Z 0) with 0; lra | change (inject_Z 0) with 0; lra | ].
  change (inject_Z 0) with 0 in Hh.
  rewrite total_hours_of_progress, remaining_of_progress.
  repeat split; [exact Hd | lra | lra | exact Hr].
Qed.

Lemma before_cycle_start_witness :
  day (termina_state 0 (-1000) 9000 4320) = 1%Z
  /\ hour (termina_state 0 (-1000) 9000 4320) == 0
  /\ total_hours (termina_state 0 (-1000) 9000 4320) == 0
  /\ seconds_remaining (termina_state 0 (-1000) 9000 4320) == 9000 - (0 + -1000).
Proof.
  apply (before_cycle_start 0 (-1000) 9000 4320); reflexivity || discriminate.
Defined.

(** X3: every reading at or after the epoch end gives the same state, for
    any cycle length: nothing remaining, 72 total hours, day 3, hour 0. *)
Theorem after_epoch_end (now offset epoch_end c : Q) :
  epoch_end <= now + offset ->
  let st := termina_state now offset epoch_end c in
  seconds_remaining st == 0 /\ total_hours st == 72
  /\ day st = 3%Z /\ hour st == 0.
Proof.
  intros Hpast st.
  assert (Hr : seconds_remaining st == 0).
  { subst st. unfold termina_state. rewrite remaining_of_progress.
    now apply remaining_past. }
  destruct (state_at_end now offset epoch_end c) as (Hd & Hh & Ht & _).
  { fold st. lra. }
  fold st in Hd, Hh, Ht. repeat split; assumption.
Qed.

Lemma after_epoch_end_witness :
  seconds_remaining (termina_state 5000 100 4320 86400) == 0
  /\ total_hours (termina_state 5000 100 4320 86400) == 72
  /\ day (termina_state 5000 100 4320 86400) = 3%Z
  /\ hour (termina_state 5000 100 4320 86400) == 0.
Proof.
  apply (after_epoch_end 5000 100 4320 86400). discriminate.
Defined.

(** ** Single runs, on any state *)

(** X7: whatever the globals and the state before, a run never leaves both
    the final-night flag and the bells flag set. *)
Theorem flags_never_both (g : Settings) (s : CueState) (st : TerminaState) :
  final_music_playing (cue (update_clock_on g s st))
  && bells_playing (cue (update_clock_on g s st)) = false.
Proof.
  destruct (remaining_cases (seconds_remaining st)) as [Hr | [[H0 H300] | Hr]].
  - rewrite tick_reset by exact Hr. reflexivity.
  - rewrite tick_countdown by assumption. reflexivity.
  - rewrite tick_above by exact Hr. cbn [cue final_music_playing bells_playing].
    apply andb_false_r.
Qed.

(** X8: a second run on the same state changes nothing and starts nothing:
    the globals and the text are those of the first run, and the only call
    is the stop that an ended cycle repeats on every run. *)
Theorem second_run_is_quiet (g : Settings) (s : CueState) (st : TerminaState) :
  let k := update_clock_on g s st in
  let k2 := update_clock_on g (cue k) st in
  cue k2 = cue k /\ label_text k2 = label_text k
  /\ calls k2 = (if Py.leb (seconds_remaining st) 0 then [stop_sound] else []).
Proof.
  cbv zeta.
  destruct (remaining_cases (seconds_remaining st)) as [Hr | [[H0 H300] | Hr]].
  - rewrite !tick_reset by exact Hr. cbn [cue calls label_text last_hour_int].
    rewrite hour_chime_same.
    destruct (lebP (seconds_remaining st) 0); [ | contradiction]. repeat split.
  - rewrite !tick_countdown by assumption. cbn [cue calls label_text bells_playing].
    destruct (lebP (seconds_remaining st) 0); [lra | ]. repeat split.
  - rewrite !tick_above by exact Hr.
    cbn [cue calls label_text last_hour_int final_music_playing].
    rewrite hour_chime_same.
    destruct (lebP (seconds_remaining st) 0); [lra | ].
    destruct (final_music_playing s), ((day st =? 3)%Z && Py.leb 18 (hour st));
      repeat split.
Qed.

(** ** Sequences of runs *)

Lemma run_cons (g : Settings) (s : CueState) (t : Q) (ts : list Q) :
  fst (run g s (t :: ts)) = fst (run g (cue (update_clock g s t)) ts)
  /\ snd (run g s (t :: ts))
     = calls (update_clock g s t) :: snd (run g (cue (update_clock g s t)) ts).
Proof.
  cbn [run]. destruct (run g (cue (update_clock g s t)) ts). split; reflexivity.
Qed.

Lemma update_clock_ended (g : Settings) (s : CueState) (t : Q) :
  seconds_remaining (get_termina_state g t) <= 0 ->
  update_clock g s t
  = mkTick (mkCue 0 false false) [stop_sound]
           ("DAWN OF A NEW DAY" ++ debug_info g (get_termina_state g t)).
Proof.
  intros H. unfold update_clock. rewrite tick_reset by exact H.
  destruct (state_at_end t (debug_time_offset g) (epoch_end_timestamp g)
              (get_cycle_length_seconds g) H) as (_ & _ & _ & Hi).
  fold (get_termina_state g t) in Hi. rewrite Hi.
  now rewrite hour_chime_other by lia.
Qed.

Lemma starts_of_app (file : string) (a b : list AudioCall) :
  starts_of file (a ++ b) = (starts_of file a + starts_of file b)%nat.
Proof. unfold starts_of. now rewrite filter_app, length_app. Qed.

Lemma starts_of_hour_chime (g : Settings) (h last : Z) (file : string) :
  String.eqb AUDIO_HOUR file = false -> starts_of file (hour_chime g h last) = 0%nat.
Proof.
  intros H. unfold hour_chime. destruct (negb _); [ | reflexivity].
  destruct (_ || _); [ | reflexivity].
  unfold starts_of. cbn [filter is_start_of]. now rewrite H.
Qed.

Lemma hour_chime_only_hour (g : Settings) (h last : Z) :
  forallb is_hour_start (hour_chime g h last) = true.
Proof.
  unfold hour_chime. destruct (negb _); [ | reflexivity].
  destruct (_ || _); reflexivity.
Qed.

(** With the final-night flag set and more than 300 seconds left on every
    reading, the flag stays and each run makes hour starts at most. *)
Lemma run_above_playing (g : Settings) (ts : list Q) :
  forall s, final_music_playing s = true ->
  Forall (above_countdown g) ts ->
  final_music_playing (fst (run g s ts)) = true
  /\ Forall (fun cs => forallb is_hour_start cs = true) (snd (run g s ts)).
Proof.
  induction ts as [ | t ts IH]; intros s Hs Hall.
  - split; [exact Hs | constructor].
  - apply Forall_cons_iff in Hall as [Ht Hrest].
    destruct (run_cons g s t ts) as [E1 E2]. rewrite E1, E2.
    assert (Hk : update_clock g s t
                 = mkTick (mkCue (Py.int (hour (get_termina_state g t))) true false)
                     (hour_chime g (Py.int (hour (get_termina_state g t)))
                        (last_hour_int s))
                     (normal_text g (get_termina_state g t))).
    { unfold update_clock. rewrite tick_above by exact Ht. rewrite Hs.
      cbn [orb negb]. now rewrite andb_false_r. }
    rewrite Hk. cbn [cue calls].
    destruct (IH (mkCue (Py.int (hour (get_termina_state g t))) true false)
                eq_refl Hrest) as [IH1 IH2].
    split; [exact IH1 | constructor; [apply hour_chime_only_hour | exact IH2]].
Qed.

(** X9: entering final night with the flag clear, the first run makes a
    stop call, the one start of the final track and then the hour-chime
    test; the runs that follow while it stays final night make neither a
    stop nor another start of it, and the flag is set at the end. *)
Theorem final_track_once_in_final_night
    (g : Settings) (s : CueState) (t0 : Q) (ts : list Q) :
  final_music_playing s = false ->
  Forall (in_final_night g) (t0 :: ts) ->
  calls (update_clock g s t0)
  = [stop_sound; play_sound AUDIO_FINAL (mute_final g)]
    ++ hour_chime g (Py.int (hour (get_termina_state g t0))) (last_hour_int s)
  /\ Forall (fun cs => forallb is_hour_start cs = true)
            (snd (run g (cue (update_clock g s t0)) ts))
  /\ final_music_playing (fst (run g s (t0 :: ts))) = true.
Proof.
  intros Hs Hall. apply Forall_cons_iff in Hall as [(Hr & Hd & Hh) Hrest].
  assert (Hk : update_clock g s t0
               = mkTick (mkCue (Py.int (hour (get_termina_state g t0))) true false)
                   ([stop_sound; play_sound AUDIO_FINAL (mute_final g)]
                    ++ hour_chime g (Py.int (hour (get_termina_state g t0)))
                         (last_hour_int s))
                   (normal_text g (get_termina_state g t0))).
  { unfold update_clock. rewrite tick_above by exact Hr. rewrite Hs, Hd.
    destruct (lebP 18 (hour (get_termina_state g t0))); [reflexivity | contradiction]. }
  assert (Habove : Forall (above_countdown g) ts).
  { eapply Forall_impl; [ | exact Hrest]. intros t (H & _ & _). exact H. }
  destruct (run_above_playing g ts (cue (update_clock g s t0))) as [H1 H2];
    [now rewrite Hk | exact Habove | ].
  destruct (run_cons g s t0 ts) as [E1 _]. rewrite E1.
  split; [now rewrite Hk | split; assumption].
Qed.

Lemma final_track_once_in_final_night_witness :
  Forall (fun cs => forallb is_hour_start cs = true)
         (snd (run (default_settings 0)
                   (cue (update_clock (default_settings 0) (mkCue 17 false false) 3961))
                   [3970; 4000])).
Proof.
  apply (final_track_once_in_final_night (default_settings 0)
           (mkCue 17 false false) 3961 [3970; 4000]).
  - reflexivity.
  - repeat constructor; vm_compute; reflexivity || discriminate.
Defined.

(** X10: the final-night flag is cleared only at 300 seconds or less.  Once
    set, it survives every run with more time left, also after the clock
    has been moved back out of final night, and no such run starts the final
    track again or makes a stop call. *)
Theorem final_flag_sticks (g : Settings) (s : CueState) (ts : list Q) :
  final_music_playing s = true ->
  Forall (above_countdown g) ts ->
  final_music_playing (fst (run g s ts)) = true
  /\ Forall (fun cs => forallb is_hour_start cs = true) (snd (run g s ts))
  /\ starts_of AUDIO_FINAL (List.concat (snd (run g s ts))) = 0%nat.
Proof.
  intros Hs Hall. destruct (run_above_playing g ts s Hs Hall) as [H1 H2].
  split; [exact H1 | split; [exact H2 | ]].
  induction H2 as [ | cs css Hcs _ IH]; [reflexivity | ].
  cbn [List.concat]. rewrite starts_of_app, IH, Nat.add_0_r.
  clear - Hcs. induction cs as [ | c cs IHc]; [reflexivity | ].
  cbn [forallb] in Hcs. apply andb_prop in Hcs as [Hc Hrest].
  unfold starts_of in *. cbn [filter].
  destruct c as [ | file muted]; [discriminate | ].
  cbn [is_hour_start is_start_of] in *. apply String.eqb_eq in Hc. subst file.
  cbn. now apply IHc.
Qed.

Lemma final_flag_sticks_witness :
  final_music_playing
    (fst (run (default_settings 0) (mkCue 18 true false) [2000; 3970])) = true
  /\ Forall (fun cs => forallb is_hour_start cs = true)
            (snd (run (default_settings 0) (mkCue 18 true false) [2000; 3970]))
  /\ starts_of AUDIO_FINAL
       (List.concat (snd (run (default_settings 0) (mkCue 18 true false) [2000; 3970])))
     = 0%nat.
Proof.
  apply (final_flag_sticks (default_settings 0) (mkCue 18 true false) [2000; 3970]).
  - reflexivity.
  - repeat constructor; vm_compute; reflexivity.
Defined.

(** *** A clock that never goes back *)

Lemma remaining_antitone_in_clock (g : Settings) (t1 t2 : Q) :
  t1 <= t2 ->
  seconds_remaining (get_termina_state g t2)
  <= seconds_remaining (get_termina_state g t1).
Proof.
  intros H. unfold get_termina_state, termina_state.
  rewrite !remaining_of_progress. apply remaining_antitone. lra.
Qed.

Lemma later_readings_below (g : Settings) (bound t : Q) (ts : list Q) :
  seconds_remaining (get_termina_state g t) <= bound ->
  Forall (Qle t) ts ->
  Forall (fun t' => seconds_remaining (get_termina_state g t') <= bound) ts.
Proof.
  intros Ht Hall. eapply Forall_impl; [ | exact Hall].
  intros t' Hle. cbv beta.
  pose proof (remaining_antitone_in_clock g t t' Hle). lra.
Qed.

Lemma run_all_ended (g : Settings) (file : string) (ts : list Q) :
  forall s,
  Forall (fun t => seconds_remaining (get_termina_state g t) <= 0) ts ->
  starts_of file (List.concat (snd (run g s ts))) = 0%nat.
Proof.
  induction ts as [ | t ts IH]; intros s Hall; [reflexivity | ].
  apply Forall_cons_iff in Hall as [Ht Hrest].
  destruct (run_cons g s t ts) as [_ E]. rewrite E. cbn [List.concat].
  rewrite starts_of_app, IH by exact Hrest.
  now rewrite update_clock_ended by exact Ht.
Qed.

Lemma run_low_bells_on (g : Settings) (file : string) (ts : list Q) :
  forall s, bells_playing s = true ->
  StronglySorted Qle ts ->
  Forall (fun t => seconds_remaining (get_termina_state g t) <= 300) ts ->
  starts_of file (List.concat (snd (run g s ts))) = 0%nat.
Proof.
  induction ts as [ | t ts IH]; intros s Hs Hsorted Hall; [reflexivity | ].
  apply StronglySorted_inv in Hsorted as [Hsorted Hle].
  pose proof Hall as Hall'. apply Forall_cons_iff in Hall' as [Ht Hrest].
  destruct (Qlt_le_dec 0 (seconds_remaining (get_termina_state g t))) as [Hpos | Hend].
  - destruct (run_cons g s t ts) as [_ E]. rewrite E. cbn [List.concat].
    unfold update_clock at 1 2. rewrite tick_countdown by assumption.
    cbn [calls cue]. rewrite Hs. rewrite starts_of_app.
    rewrite IH by (reflexivity || assumption). reflexivity.
  - apply run_all_ended. constructor; [exact Hend | ].
    now apply later_readings_below with (t := t).
Qed.

Lemma run_low (g : Settings) (ts : list Q) (s : CueState) :
  StronglySorted Qle ts ->
  Forall (fun t => seconds_remaining (get_termina_state g t) <= 300) ts ->
  (starts_of AUDIO_BELLS (List.concat (snd (run g s ts))) <= 1)%nat
  /\ starts_of AUDIO_FINAL (List.concat (snd (run g s ts))) = 0%nat.
Proof.
  intros Hsorted Hall. destruct ts as [ | t ts]; [split; [cbn; lia | reflexivity] | ].
  apply StronglySorted_inv in Hsorted as [Hsorted Hle].
  pose proof Hall as Hall'. apply Forall_cons_iff in Hall' as [Ht Hrest].
  destruct (Qlt_le_dec 0 (seconds_remaining (get_termina_state g t))) as [Hpos | Hend].
  - destruct (run_cons g s t ts) as [_ E]. rewrite E. cbn [List.concat].
    unfold update_clock at 1 2 3 4. rewrite tick_countdown by assumption.
    cbn [calls cue]. rewrite !starts_of_app.
    rewrite !(run_low_bells_on g _ ts) by (reflexivity || assumption).
    destruct (bells_playing s); cbn; split; lia.
  - rewrite !run_all_ended; [split; [lia | reflexivity] | | ];
      (constructor; [exact Hend | now apply later_readings_below with (t := t)]).
Qed.

Lemma run_final_on (g : Settings) (ts : list Q) :
  forall s, final_music_playing s = true ->
  StronglySorted Qle ts ->
  starts_of AUDIO_FINAL (List.concat (snd (run g s ts))) = 0%nat.
Proof.
  induction ts as [ | t ts IH]; intros s Hs Hsorted; [reflexivity | ].
  destruct (Qlt_le_dec 300 (seconds_remaining (get_termina_state g t))) as [Hhigh | Hlow].
  - apply StronglySorted_inv in Hsorted as [Hsorted _].
    destruct (run_cons g s t ts) as [_ E]. rewrite E. cbn [List.concat].
    unfold update_clock at 1 2. rewrite tick_above by exact Hhigh.
    cbn [calls cue]. rewrite Hs. cbn [orb negb]. rewrite andb_false_r.
    rewrite !starts_of_app, starts_of_hour_chime by reflexivity.
    rewrite IH by (reflexivity || assumption). reflexivity.
  - apply run_low; [exact Hsorted | ].
    apply StronglySorted_inv in Hsorted as [_ Hle].
    constructor; [exact Hlow | now apply later_readings_below with (t := t)].
Qed.

(** X21: while the clock readings never decrease and the settings stay as
    they are, the bells track is started at most once and the final track
    is started at most once over all the runs, from any globals. *)
Theorem each_track_at_most_once (g : Settings) (ts : list Q) :
  StronglySorted Qle ts ->
  forall s,
  (starts_of AUDIO_BELLS (List.concat (snd (run g s ts))) <= 1)%nat
  /\ (starts_of AUDIO_FINAL (List.concat (snd (run g s ts))) <= 1)%nat.
Proof.
  induction ts as [ | t ts IH]; intros Hsorted s; [cbn; lia | ].
  destruct (Qlt_le_dec 300 (seconds_remaining (get_termina_state g t))) as [Hhigh | Hlow].
  - apply StronglySorted_inv in Hsorted as [Hsorted _].
    destruct (run_cons g s t ts) as [_ E]. rewrite E. cbn [List.concat].
    rewrite !starts_of_app.
    destruct (IH Hsorted (cue (update_clock g s t))) as [IHb IHf].
    assert (Hb : starts_of AUDIO_BELLS (calls (update_clock g s t)) = 0%nat).
    { unfold update_clock. rewrite tick_above by exact Hhigh. cbn [calls].
      rewrite starts_of_app, starts_of_hour_chime by reflexivity.
      destruct (_ && negb _); reflexivity. }
    rewrite Hb. split; [exact IHb | ].
    destruct (final_music_playing (cue (update_clock g s t))) eqn:Hflag.
    + rewrite (run_final_on g ts _ Hflag Hsorted).
      unfold update_clock. rewrite tick_above by exact Hhigh. cbn [calls].
      rewrite starts_of_app, starts_of_hour_chime by reflexivity.
      destruct (_ && negb _); cbn; lia.
    + unfold update_clock in Hflag |- *. rewrite tick_above in Hflag |- * by exact Hhigh.
      cbn [calls cue final_music_playing] in Hflag |- *.
      apply orb_false_elim in Hflag as [_ Hnight]. rewrite Hnight. cbn [andb app].
      rewrite starts_of_hour_chime by reflexivity.
      unfold update_clock in IHf. rewrite tick_above in IHf by exact Hhigh.
      cbn [cue] in IHf. rewrite Hnight in IHf. exact IHf.
  - destruct (run_low g (t :: ts) s Hsorted) as [Hb Hf].
    { apply StronglySorted_inv in Hsorted as [_ Hle].
      constructor; [exact Hlow | now apply later_readings_below with (t := t)]. }
    split; [exact Hb | lia].
Qed.

Lemma each_track_at_most_once_witness :
  let css := snd (run (default_settings 0) initial_cue
                      [3000; 3970; 4000; 4100; 4200; 4320]) in
  (starts_of AUDIO_BELLS (List.concat css) <= 1)%nat
  /\ (starts_of AUDIO_FINAL (List.concat css) <= 1)%nat.
Proof.
  apply (each_track_at_most_once (default_settings 0)
           [3000; 3970; 4000; 4100; 4200; 4320]).
  repeat constructor; discriminate.
Defined.


(** ** What a run shows and plays *)

Lemma d0_3_length (n : Z) :
  (0 <= n <= 999)%Z -> String.length (Fmt.d0 3 n) = 3%nat.
Proof.
  intros Hn.
  assert (Hall : forallb (fun k => Nat.eqb (String.length (Fmt.d0 3 (Z.of_nat k))) 3)
                         (seq 0 1000) = true) by (vm_compute; reflexivity).
  rewrite forallb_forall in Hall.
  specialize (Hall (Z.to_nat n)). rewrite Z2Nat.id in Hall by lia.
  apply Nat.eqb_eq, Hall, in_seq. lia.
Qed.

(** X11: in the last 300 seconds the text shows the whole seconds, between
    0 and 300 and never above the time left, and the milliseconds, between
    0 and 999 and always as three digits. *)
Theorem countdown_text_digits (g : Settings) (s : CueState) (st : TerminaState) :
  0 < seconds_remaining st -> seconds_remaining st <= 300 ->
  exists whole_sec ms : Z,
    label_text (update_clock_on g s st)
    = ("FINAL HOURS" ++ Fmt.nl ++ Fmt.d0 2 whole_sec ++ "." ++ Fmt.d0 3 ms
         ++ " seconds remain" ++ debug_info g st)%string
    /\ (0 <= whole_sec <= 300)%Z
    /\ inject_Z whole_sec <= seconds_remaining st
    /\ seconds_remaining st < inject_Z whole_sec + 1
    /\ (0 <= ms <= 999)%Z
    /\ String.length (Fmt.d0 3 ms) = 3%nat.
Proof.
  intros H0 H300. set (r := seconds_remaining st) in *.
  exists (Py.int r), (Py.int ((r - inject_Z (Py.int r)) * 1000)).
  rewrite tick_countdown by assumption. cbn [label_text].
  split; [reflexivity | ].
  rewrite (int_floor r) by lra.
  pose proof (Qfloor_le r) as Hlo. pose proof (Qlt_floor r) as Hhi.
  rewrite inject_Z_plus in Hhi. change (inject_Z 1) with 1 in Hhi.
  assert (Hw : (0 <= Qfloor r < 301)%Z).
  { apply floor_between; [change (inject_Z 0) with 0 | change (inject_Z 301) with 301]; lra. }
  assert (Hms : (0 <= Py.int ((r - inject_Z (Qfloor r)) * 1000) <= 999)%Z).
  { rewrite int_floor by lra.
    assert (Hb : (0 <= Qfloor ((r - inject_Z (Qfloor r)) * 1000) < 1000)%Z).
    { apply floor_between;
        [change (inject_Z 0) with 0 | change (inject_Z 1000) with 1000]; lra. }
    lia. }
  repeat split; try lia; try assumption.
  now apply d0_3_length.
Qed.

Lemma countdown_text_digits_witness :
  exists whole_sec ms : Z,
    label_text (update_clock_on (default_settings 0) (mkCue 0 false false)
                  (termina_state (4070 + (1 # 3)) 0 4320 4320))
    = ("FINAL HOURS" ++ Fmt.nl ++ Fmt.d0 2 whole_sec ++ "." ++ Fmt.d0 3 ms
         ++ " seconds remain"
         ++ debug_info (default_settings 0)
              (termina_state (4070 + (1 # 3)) 0 4320 4320))%string
    /\ (0 <= whole_sec <= 300)%Z
    /\ inject_Z whole_sec
       <= seconds_remaining (termina_state (4070 + (1 # 3)) 0 4320 4320)
    /\ seconds_remaining (termina_state (4070 + (1 # 3)) 0 4320 4320)
       < inject_Z whole_sec + 1
    /\ (0 <= ms <= 999)%Z
    /\ String.length (Fmt.d0 3 ms) = 3%nat.
Proof.
  apply (countdown_text_digits (default_settings 0) (mkCue 0 false false)
           (termina_state (4070 + (1 # 3)) 0 4320 4320));
    vm_compute; reflexivity || discriminate.
Defined.

(** X12: outside the last 300 seconds and before the end, the text shows
    the day, an hour between 0 and 23 and, when seconds are shown, a count
    between 0 and 59. *)
Theorem normal_text_digits (g : Settings) (s : CueState) (t : Q) :
  let st := get_termina_state g t in
  300 < seconds_remaining st ->
  exists hour_int display_seconds : Z,
    label_text (update_clock g s t)
    = (if show_seconds g
       then "Day " ++ Fmt.d (day st) ++ Fmt.nl ++ Fmt.d0 2 hour_int ++ ":"
              ++ Fmt.d0 2 display_seconds ++ " Termina" ++ debug_info g st
       else "Day " ++ Fmt.d (day st) ++ Fmt.nl ++ Fmt.d0 2 hour_int
              ++ ":00 Termina" ++ debug_info g st)%string
    /\ (1 <= day st <= 3)%Z
    /\ (0 <= hour_int <= 23)%Z
    /\ (0 <= display_seconds <= 59)%Z.
Proof.
  intros st Hr.
  exists (Py.int (hour st)), (Py.int (Py.mod_ (hour st) 1 * 60)).
  unfold update_clock. fold st. rewrite tick_above by exact Hr. cbn [label_text].
  split; [unfold normal_text; destruct (show_seconds g); reflexivity | ].
  assert (Hrange : (day st = 1 \/ day st = 2 \/ day st = 3)%Z
                   /\ 0 <= hour st /\ hour st < 24).
  { subst st. unfold get_termina_state, termina_state.
    set (r := remaining _ _). set (p := cycle_progress r _).
    split; [ | apply hour_range].
    rewrite day_of_progress.
    destruct (cycle_progress_range r (get_cycle_length_seconds g)) as [Hlo _].
    fold p in Hlo.
    assert (Hz : (0 <= Qfloor (p * 72 / 24))%Z).
    { rewrite <- (Qfloor_Z 0). apply Qfloor_resp_le.
      assert (E : p * 72 / 24 == p * 3) by field. rewrite E.
      change (inject_Z 0) with 0. lra. }
    lia. }
  destruct Hrange as (Hd & Hh0 & Hh24).
  split; [lia | ].
  assert (Hi : (0 <= Qfloor (hour st) < 24)%Z).
  { apply floor_between; [change (inject_Z 0) with 0 | change (inject_Z 24) with 24]; lra. }
  split; [rewrite int_floor by exact Hh0; lia | ].
  unfold Py.mod_, Py.floordiv.
  assert (E : Qfloor (hour st / 1) = Qfloor (hour st)).
  { assert (E1 : hour st / 1 == hour st) by field. now rewrite E1. }
  rewrite E.
  pose proof (Qfloor_le (hour st)) as Hlo. pose proof (Qlt_floor (hour st)) as Hhi.
  rewrite inject_Z_plus in Hhi. change (inject_Z 1) with 1 in Hhi.
  rewrite int_floor by lra.
  assert (Hs : (0 <= Qfloor ((hour st - 1 * inject_Z (Qfloor (hour st))) * 60) < 60)%Z).
  { apply floor_between; [change (inject_Z 0) with 0 | change (inject_Z 60) with 60]; lra. }
  lia.
Qed.

Lemma normal_text_digits_witness :
  exists hour_int display_seconds : Z,
    label_text (update_clock (default_settings 0) initial_cue 1105)
    = ("Day " ++ Fmt.d (day (get_termina_state (default_settings 0) 1105))
         ++ Fmt.nl ++ Fmt.d0 2 hour_int ++ ":00 Termina"
         ++ debug_info (default_settings 0)
              (get_termina_state (default_settings 0) 1105))%string
    /\ (1 <= day (get_termina_state (default_settings 0) 1105) <= 3)%Z
    /\ (0 <= hour_int <= 23)%Z
    /\ (0 <= display_seconds <= 59)%Z.
Proof.
  apply (normal_text_digits (default_settings 0) initial_cue 1105).
  vm_compute. reflexivity.
Defined.

(** X14: with both mute flags set a run asks the mixer for nothing but the
    stops, and these are the stops it asks for under any other choice of
    the flags: muting a track does not hold back the stop made before it. *)
Theorem muted_run_keeps_the_stops
    (g : Settings) (s : CueState) (st : TerminaState) (mh mf : bool) :
  mixer_trace (calls (update_clock_on (set_mutes true true g) s st))
  = filter is_music_stop
      (mixer_trace (calls (update_clock_on (set_mutes mh mf g) s st)))
  /\ Forall (fun op => op = music_stop)
            (mixer_trace (calls (update_clock_on (set_mutes true true g) s st))).
Proof.
  destruct (remaining_cases (seconds_remaining st)) as [Hr | [[H0 H300] | Hr]].
  - rewrite !tick_reset by exact Hr. cbn [calls]. unfold hour_chime.
    destruct (negb _); [destruct (_ || _) | ]; destruct mh;
      cbn; repeat constructor.
  - rewrite !tick_countdown by assumption. cbn [calls].
    destruct (bells_playing s); destruct mf; cbn; repeat constructor.
  - rewrite !tick_above by exact Hr. cbn [calls]. unfold hour_chime.
    destruct (_ && negb _); (destruct (negb _); [destruct (_ || _) | ]);
      destruct mh, mf; cbn; repeat constructor.
Qed.

(** X15: in the calls of a run every start of the final or the bells track
    comes directly after a stop call; only the hour chime starts without
    one. *)
Theorem stop_comes_before_start (g : Settings) (s : CueState) (st : TerminaState) :
  stop_before_each_start false (calls (update_clock_on g s st)) = true.
Proof.
  destruct (remaining_cases (seconds_remaining st)) as [Hr | [[H0 H300] | Hr]].
  - rewrite tick_reset by exact Hr. cbn [calls]. unfold hour_chime.
    destruct (negb _); [destruct (_ || _) | ]; reflexivity.
  - rewrite tick_countdown by assumption. cbn [calls].
    destruct (bells_playing s); reflexivity.
  - rewrite tick_above by exact Hr. cbn [calls]. unfold hour_chime.
    destruct (_ && negb _); (destruct (negb _); [destruct (_ || _) | ]);
      reflexivity.
Qed.


(** ** The settings window *)

(** X20: splitting a string at a character and joining the pieces with it
    gives the string back; there is always at least one piece, and a string
    without the character is its own single piece. *)
Theorem split_then_join (sep : ascii) (s : string) :
  String.concat (String sep EmptyString) (split sep s) = s
  /\ split sep s <> []
  /\ (contains sep s = false <-> split sep s = [s]).
Proof.
  assert (Hne : forall u, split sep u <> []).
  { intros u. destruct u as [ | c u]; cbn [split]; [discriminate | ].
    destruct (Ascii.eqb c sep); [discriminate | ].
    destruct (split sep u); discriminate. }
  split; [ | split; [apply Hne | ]].
  - induction s as [ | c s IH]; [reflexivity | ].
    cbn [split]. specialize (Hne s).
    destruct (split sep s) as [ | h tl] eqn:E; [contradiction | ].
    destruct (Ascii.eqb c sep) eqn:Hc.
    + apply Ascii.eqb_eq in Hc. subst c.
      change (String.concat (String sep EmptyString) (EmptyString :: h :: tl))
        with (String sep (String.concat (String sep EmptyString) (h :: tl))).
      now rewrite IH.
    + destruct tl as [ | h2 tl].
      * cbn [String.concat] in IH |- *. now rewrite IH.
      * change (String.concat (String sep EmptyString) (String c h :: h2 :: tl))
          with (String c (String.concat (String sep EmptyString) (h :: h2 :: tl))).
        now rewrite IH.
  - induction s as [ | c s IH]; [split; reflexivity | ].
    cbn [split contains]. destruct (Ascii.eqb_spec c sep) as [-> | Hc]; cbn [orb].
    + split; [discriminate | ]. intros H. exfalso.
      injection H as H1 H2. discriminate.
    + specialize (Hne s). destruct (split sep s) as [ | h tl] eqn:E;
        [contradiction | ].
      rewrite IH. split.
      * intros H. injection H as -> ->. reflexivity.
      * intros H. injection H as -> ->. reflexivity.
Qed.

Lemma split_then_join_witness :
  split ":" "1430" = ["1430"%string].
Proof.
  apply (split_then_join ":" "1430"). reflexivity.
Defined.

(** X18: an accepted time entry gives an hour from 0 to 23 and a minute
    from 0 to 59; an entry without a colon is read as the hour, with minute
    0; an entry with a colon has exactly two fields, hour and minute. *)
Theorem parse_time_accepts (int_of_str : string -> option Z) (t : string) (hh mm : Z) :
  parse_time int_of_str t = Some (hh, mm) ->
  (0 <= hh <= 23)%Z /\ (0 <= mm <= 59)%Z
  /\ (contains ":" t = false -> int_of_str t = Some hh /\ mm = 0%Z)
  /\ (contains ":" t = true ->
      exists a b, split ":" t = [a; b]
                  /\ int_of_str a = Some hh /\ int_of_str b = Some mm).
Proof.
  unfold parse_time. intros H.
  destruct (contains ":" t) eqn:Hc.
  - destruct (split ":" t) as [ | a [ | b [ | c rest]]] eqn:Es; try discriminate.
    destruct (int_of_str a) as [ha | ] eqn:Ea; [ | discriminate].
    destruct (int_of_str b) as [mb | ] eqn:Eb; [ | discriminate].
    destruct (negb _) eqn:Hrange; [discriminate | ].
    injection H as <- <-. apply negb_false_iff in Hrange.
    repeat (apply andb_prop in Hrange as [Hrange ?]).
    repeat split; try lia; try discriminate.
    intros _. exists a, b. repeat split; assumption.
  - destruct (int_of_str t) as [ht | ] eqn:Et; [ | discriminate].
    destruct (negb _) eqn:Hrange; [discriminate | ].
    injection H as <- <-. apply negb_false_iff in Hrange.
    repeat (apply andb_prop in Hrange as [Hrange ?]).
    repeat split; try lia; try discriminate.
Qed.

Lemma parse_time_accepts_witness :
  (0 <= 7 <= 23)%Z /\ (0 <= 5 <= 59)%Z
  /\ (contains ":" "07:05" = false -> digits_only "07:05" = Some 7%Z /\ 5%Z = 0%Z)
  /\ (contains ":" "07:05" = true ->
      exists a b, split ":" "07:05" = [a; b]
                  /\ digits_only a = Some 7%Z /\ digits_only b = Some 5%Z).
Proof.
  apply (parse_time_accepts digits_only "07:05" 7 5). reflexivity.
Defined.

(** X16: Save takes the two mute flags, debug mode, the seconds and dark
    mode options and the cycle mode from the form whatever the two entries
    hold, also when one or both are rejected. *)
Theorem save_always_applies_options
    (str_strip : string -> string)
    (int_of_str : string -> option Z) (float_of_str : string -> option PyFloat)
    (time_now : Q) (today_at next_day_at : Z -> Z -> Q)
    (f : Form) (p : Globals) :
  let g' := settings (fst (save_settings str_strip int_of_str float_of_str
                             time_now today_at next_day_at f p)) in
  mute_hour g' = hour_var f /\ mute_final g' = final_var f
  /\ debug_mode g' = debug_var f /\ show_seconds g' = seconds_var f
  /\ dark_mode g' = dark_var f /\ cycle_mode g' = cycle_var f.
Proof.
  cbv zeta. unfold save_settings, apply_time, store_offset.
  destruct (truthy (str_strip (epoch_entry f)));
    [destruct (parse_time int_of_str _) as [[hh mm] | ] | ];
    (destruct (truthy (str_strip (debug_offset_entry f)));
     [destruct (float_of_str _) as [[q | x] | ] | ]);
    repeat split.
Qed.

(** X17: an entry that is empty after stripping is skipped: an empty time
    entry leaves the epoch end alone, an empty offset entry leaves the debug
    offset alone, and with both empty Save prints nothing. *)
Theorem save_skips_empty_entries
    (str_strip : string -> string)
    (int_of_str : string -> option Z) (float_of_str : string -> option PyFloat)
    (time_now : Q) (today_at next_day_at : Z -> Z -> Q)
    (f : Form) (p : Globals) :
  let out := save_settings str_strip int_of_str float_of_str
               time_now today_at next_day_at f p in
  (str_strip (epoch_entry f) = EmptyString ->
   epoch_end_timestamp (settings (fst out)) = epoch_end_timestamp (settings p))
  /\ (str_strip (debug_offset_entry f) = EmptyString ->
      debug_time_offset (settings (fst out)) = debug_time_offset (settings p)
      /\ offset_of (fst out) = offset_of p)
  /\ (str_strip (epoch_entry f) = EmptyString ->
      str_strip (debug_offset_entry f) = EmptyString ->
      snd out = []).
Proof.
  cbv zeta. unfold save_settings, apply_time, store_offset. split; [ | split].
  - intros ->. cbn [truthy].
    destruct (truthy (str_strip (debug_offset_entry f)));
      [destruct (float_of_str _) as [[q | x] | ] | ]; reflexivity.
  - intros ->. cbn [truthy].
    destruct (truthy (str_strip (epoch_entry f)));
      [destruct (parse_time int_of_str _) as [[hh mm] | ] | ];
      split; reflexivity.
  - intros -> ->. reflexivity.
Qed.

Lemma save_skips_empty_entries_witness :
  snd (save_settings (fun s => s) digits_only digits_only_Q 0
         seconds_at seconds_next_day_at
         (mkForm "" "24hr" true true false false false "")
         (mkGlobals (default_settings 0) initial_cue None))
  = [].
Proof.
  apply (save_skips_empty_entries (fun s => s) digits_only digits_only_Q 0
           seconds_at seconds_next_day_at
           (mkForm "" "24hr" true true false false false "")
           (mkGlobals (default_settings 0) initial_cue None)); reflexivity.
Defined.

(** X19: an accepted time entry moves the epoch end to that time today, or
    to the same time the next day when today's has passed; if the next
    day's time lies ahead of the clock, so does the new epoch end.  The
    printed start of day 1 is one cycle length earlier, by the cycle mode
    just taken from the form.  The offset entry has no part in it. *)
Theorem save_accepted_time
    (str_strip : string -> string)
    (int_of_str : string -> option Z) (float_of_str : string -> option PyFloat)
    (time_now : Q) (today_at next_day_at : Z -> Z -> Q)
    (f : Form) (p : Globals) (hh mm : Z) :
  str_strip (epoch_entry f) <> EmptyString ->
  parse_time int_of_str (str_strip (epoch_entry f)) = Some (hh, mm) ->
  let out := save_settings str_strip int_of_str float_of_str
               time_now today_at next_day_at f p in
  let target := epoch_end_timestamp (settings (fst out)) in
  target = (if Py.leb (today_at hh mm) time_now then next_day_at hh mm
            else today_at hh mm)
  /\ (time_now < next_day_at hh mm -> time_now < target)
  /\ In (Day3WillEndAt target) (snd out)
  /\ In (Day1StartedAt
           (target - (if String.eqb (cycle_var f) "72min"
                      then REAL_SECONDS_72MIN else REAL_SECONDS_24HR)))
        (snd out).
Proof.
  intros Ht Hparse. cbv zeta. unfold save_settings. rewrite Hparse.
  destruct (str_strip (epoch_entry f)) as [ | c t']; [contradiction | ].
  cbn [truthy]. unfold apply_time, get_cycle_length_seconds. cbn [cycle_mode].
  assert (Hfuture : time_now < next_day_at hh mm ->
                    time_now < (if Py.leb (today_at hh mm) time_now
                                then next_day_at hh mm else today_at hh mm)).
  { intros Hn. destruct (lebP (today_at hh mm) time_now); [exact Hn | lra]. }
  destruct (truthy (str_strip (debug_offset_entry f)));
    [destruct (float_of_str _) as [[q | x] | ] | ]; cbn;
    (split; [reflexivity | split; [exact Hfuture | split; [now left | right; now left]]]).
Qed.

Lemma save_accepted_time_witness :
  let out := save_settings (fun s => s) digits_only digits_only_Q 50000
               seconds_at seconds_next_day_at
               (mkForm "14:30" "24hr" true false false false false "x")
               (mkGlobals (default_settings 0) initial_cue None) in
  50000 < epoch_end_timestamp (settings (fst out)).
Proof.
  apply (save_accepted_time (fun s => s) digits_only digits_only_Q 50000
           seconds_at seconds_next_day_at
           (mkForm "14:30" "24hr" true false false false false "x")
           (mkGlobals (default_settings 0) initial_cue None) 14 30).
  - discriminate.
  - reflexivity.
  - reflexivity.
Defined.


(** ** After the end *)

(** X22: once no time remains every run makes the stop call again, shows
    the end-of-cycle text and leaves the same globals: the hour at 0 and
    both flags clear.  Nothing starts the next cycle. *)
Theorem ended_cycle_stops_every_run (g : Settings) (ts : list Q) :
  Forall (fun t => seconds_remaining (get_termina_state g t) <= 0) ts ->
  forall s,
  snd (run g s ts) = repeat [stop_sound] (List.length ts)
  /\ (ts <> [] -> fst (run g s ts) = mkCue 0 false false)
  /\ Forall (fun t => label_text (update_clock g s t)
                      = ("DAWN OF A NEW DAY"
                           ++ debug_info g (get_termina_state g t))%string) ts.
Proof.
  induction ts as [ | t ts IH]; intros Hall s.
  - repeat split; [intros H; contradiction | constructor].
  - apply Forall_cons_iff in Hall as [Ht Hrest].
    destruct (run_cons g s t ts) as [E1 E2]. rewrite E1, E2.
    rewrite (update_clock_ended g s t Ht). cbn [cue calls List.length repeat].
    destruct (IH Hrest (mkCue 0 false false)) as (IH1 & IH2 & _).
    destruct (IH Hrest s) as (_ & _ & IH3).
    split; [now rewrite IH1 | split].
    + intros _. destruct ts as [ | t' ts']; [reflexivity | ].
      apply IH2. discriminate.
    + constructor; [now rewrite (update_clock_ended g s t Ht) | exact IH3].
Qed.

Lemma ended_cycle_stops_every_run_witness :
  snd (run (default_settings 0) (mkCue 23 false true) [4320; 4321; 9000])
  = [[stop_sound]; [stop_sound]; [stop_sound]].
Proof.
  apply (ended_cycle_stops_every_run (default_settings 0) [4320; 4321; 9000]).
  repeat constructor; vm_compute; discriminate.
Defined.
